(** * TextEditor: the settings store of [TextEditorApp]

    A shallow embedding of the parts of [src/TextEditor.py] that load, apply
    and persist the user's preferences: [load_settings],
    [save_settings_to_file], [save_settings], [apply_theme], [apply_font],
    and [closeEvent].

    The attributes of the window object are dynamically typed Python values,
    the [QSettings] store is a finite map from key strings to such values, and
    the calls that can raise ([int], the toolkit's typed setters) return in an
    error monad. *)

From Stdlib Require Import ZArith String Ascii List Lia Bool.
From Stdlib Require Import DecimalString DecimalPos DecimalN DecimalZ.
From stdpp Require Import gmap strings.

Local Open Scope Z_scope.
Local Open Scope string_scope.

(** ** Python values *)

Module Py.

(** The kinds of value modelled: [None] (an invalid variant), [bool], [int],
    [str] (its UTF-8 bytes) and a [QByteArray].  These are the values the
    program writes with [setValue] and the widgets return; the other
    variant types a store can hold (string lists, sizes, dates) are outside
    the model. *)
Inductive value : Type :=
  | VNone
  | VBool (b : bool)
  | VInt (n : Z)
  | VStr (s : string)
  | VBytes (b : list ascii).

(** The exceptions the modelled code can raise. *)
Inductive exc : Type :=
  | ValueError
  | TypeError
  | OverflowError.

Inductive result (A : Type) : Type :=
  | Ok (a : A)
  | Raise (e : exc).

Arguments Ok {A} a.
Arguments Raise {A} e.

(** Sequencing: an exception raised by a statement leaves the function. *)
#[global] Instance result_ret : MRet result := fun A a => Ok a.
#[global] Instance result_bind : MBind result := fun A B k r =>
  match r with
  | Ok a => k a
  | Raise e => Raise e
  end.

(** [x == lit] for an ASCII [str] literal [lit]: an equal [str] compares
    equal, and so does a [QByteArray] that holds the bytes of [lit] (the
    binding compares a byte array with a [str] by content); [None] and
    numbers are unequal to every [str]. *)
Definition eq_str (v : value) (lit : string) : bool :=
  match v with
  | VStr s => String.eqb s lit
  | VBytes b => String.eqb (string_of_list_ascii b) lit
  | _ => false
  end.

(** Truth value of [if v:]. *)
Definition truthy (v : value) : bool :=
  match v with
  | VNone => false
  | VBool b => b
  | VInt n => negb (Z.eqb n 0)
  | VStr s => negb (String.eqb s "")
  | VBytes b => match b with [] => false | _ => true end
  end.

(** *** [int(x)]

    Base-10 conversion: a number is returned as it is, a [bool] as 0 or 1,
    and text is parsed as: optional surrounding white space, an optional
    sign, then decimal digits in which single underscores may separate
    digits.  Anything else raises [ValueError].

    That grammar is computed here for ASCII text of at most 640 characters.
    Two things the interpreter decides by tables and settings of its own are
    taken from it as [interp]: what [int] makes of a [str] with a non-ASCII
    character (Unicode decimal digits and blanks are accepted), and what it
    makes of text of more than 640 characters (the limit on the number of
    digits, which cannot be set below 640, may refuse it). *)

Record interp : Type := Interp {
  int_unicode : string -> option Z;
  int_long : list ascii -> option Z
}.

(** White space of ASCII text: tab to carriage return, and the space. *)
Definition is_space (c : ascii) : bool :=
  let n := N_of_ascii c in
  (N.leb 9 n && N.leb n 13) || N.eqb n 32.

Definition digit_of (c : ascii) : option Z :=
  let n := Z.of_N (N_of_ascii c) in
  if Z.leb 48 n && Z.leb n 57 then Some (n - 48) else None.

Definition is_underscore (c : ascii) : bool := Ascii.eqb c "_"%char.

Fixpoint lstrip (l : list ascii) : list ascii :=
  match l with
  | [] => []
  | c :: r => if is_space c then lstrip r else l
  end.

Fixpoint rstrip (l : list ascii) : list ascii :=
  match l with
  | [] => []
  | c :: r =>
      match rstrip r with
      | [] => if is_space c then [] else [c]
      | r' => c :: r'
      end
  end.

Definition strip (l : list ascii) : list ascii := rstrip (lstrip l).

(** [digits_after acc l]: [l] follows a digit; [acc] is the value so far. *)
Fixpoint digits_after (acc : Z) (l : list ascii) : option Z :=
  match l with
  | [] => Some acc
  | c :: r =>
      match digit_of c with
      | Some d => digits_after (acc * 10 + d) r
      | None =>
          if is_underscore c then
            match r with
            | c' :: r' =>
                match digit_of c' with
                | Some d => digits_after (acc * 10 + d) r'
                | None => None
                end
            | [] => None
            end
          else None
      end
  end.

Definition unsigned_of (l : list ascii) : option Z :=
  match l with
  | [] => None
  | c :: r =>
      match digit_of c with
      | Some d => digits_after d r
      | None => None
      end
  end.

(** The ASCII grammar. *)
Definition int_of_text (l : list ascii) : option Z :=
  match strip l with
  | c :: r =>
      if Ascii.eqb c "-"%char then Z.opp <$> unsigned_of r
      else if Ascii.eqb c "+"%char then unsigned_of r
      else unsigned_of (c :: r)
  | [] => None
  end.

Definition is_ascii (l : list ascii) : bool :=
  forallb (fun c => N.ltb (N_of_ascii c) 128) l.

(** [int(s)] for a [str]: [None] when it raises [ValueError]. *)
Definition int_of_str (py : interp) (s : string) : option Z :=
  let l := list_ascii_of_string s in
  if negb (is_ascii l) then int_unicode py s
  else if Nat.leb (length l) 640 then int_of_text l
  else int_long py l.

(** [int(b)] for a byte array, read through its buffer. *)
Definition int_of_bytes (py : interp) (b : list ascii) : option Z :=
  if Nat.leb (length b) 640 then int_of_text b else int_long py b.

Definition int (py : interp) (v : value) : result Z :=
  match v with
  | VInt n => Ok n
  | VBool b => Ok (if b then 1 else 0)
  | VStr s =>
      match int_of_str py s with
      | Some n => Ok n
      | None => Raise ValueError
      end
  | VBytes b =>
      match int_of_bytes py b with
      | Some n => Ok n
      | None => Raise ValueError
      end
  | VNone => Raise TypeError
  end.

(** An interpreter that refuses all the text it is asked about; the
    examples below never ask it. *)
Definition strict : interp := Interp (fun _ => None) (fun _ => None).

End Py.

(** ** The backing store

    [QSettings("TextEditor", "Settings")] is a key-value store that outlives
    the process.  Within the process that wrote it, [value] returns a value
    as it was given to [setValue].  A later run reads the store's own
    representation: the INI file keeps a [bool] and an integer of up to 64
    bits as text, the registry keeps such an integer as a number and a
    [bool] as text; a larger integer is kept as a Python object in both.
    [load_settings] runs in the constructor, so in the program it always
    reads what an earlier run left. *)

Module QSettings.

(** The two text-backed native formats. *)
Inductive format : Type :=
  | IniFile
  | Registry.

(** Who reads the store: the process that wrote it, or a later run through
    the format. *)
Inductive view : Type :=
  | Live
  | Later (fmt : format).

Coercion Later : format >-> view.

Abbreviation store := (gmap string Py.value).

(** Decimal text of an integer, as the INI writer prints it. *)
Definition decimal (n : Z) : string := NilZero.string_of_int (Z.to_int n).

(** What a later run's [value] call returns for a value given to
    [setValue]. *)
Definition stored (fmt : format) (v : Py.value) : Py.value :=
  match v with
  | Py.VBool b => Py.VStr (if b then "true" else "false")
  | Py.VInt n =>
      match fmt with
      | IniFile =>
          if Z.leb (- 2 ^ 63) n && Z.ltb n (2 ^ 64)
          then Py.VStr (decimal n)
          else Py.VInt n
      | Registry => Py.VInt n
      end
  | _ => v
  end.

(** What [value] returns, in view [vw], for a value given to [setValue]. *)
Definition read_back (vw : view) (v : Py.value) : Py.value :=
  match vw with
  | Live => v
  | Later fmt => stored fmt v
  end.

(** [setValue(key, v)]; the store is the one the reader in view [vw]
    finds. *)
Definition setValue (vw : view) (key : string) (v : Py.value)
    (settings : store) : store :=
  <[key := read_back vw v]> settings.

(** [settings.value(key, default)]; the one-argument form has default
    [None]. *)
Definition value (key : string) (default : Py.value) (settings : store)
    : Py.value :=
  match settings !! key with
  | Some v => v
  | None => default
  end.

End QSettings.

(** ** The window object *)

(** Where the window was last put: by [setGeometry] or by [restoreGeometry]
    from a stored blob. *)
Inductive placement : Type :=
  | Unplaced
  | Rect (x y w h : Z)
  | Restored (blob : list ascii).

(** The attributes of [TextEditorApp] that the settings code reads or writes.
    The five preferences are Python attributes; the rest is toolkit state:
    the style sheet, the text of [text_area] as [toPlainText] returns it, its
    font, where the window was put, the dock layout last restored, and the
    blobs that [saveGeometry()] and [saveState()] answer in this state (the
    toolkit's serialiser is a black box). *)
Record app : Type := App {
  font_name : Py.value;
  font_size : Py.value;
  theme_mode : Py.value;
  text_content : Py.value;
  show_debug : Py.value;
  styleSheet : string;
  text_area : string;
  text_area_font : option (Py.value * Py.value);
  geometry : placement;
  dock_state : option (list ascii);
  saveGeometry : list ascii;
  saveState : list ascii
}.

Definition set_font_name (v : Py.value) (a : app) : app :=
  App v (font_size a) (theme_mode a) (text_content a) (show_debug a)
    (styleSheet a) (text_area a) (text_area_font a) (geometry a)
    (dock_state a) (saveGeometry a) (saveState a).

Definition set_font_size (v : Py.value) (a : app) : app :=
  App (font_name a) v (theme_mode a) (text_content a) (show_debug a)
    (styleSheet a) (text_area a) (text_area_font a) (geometry a)
    (dock_state a) (saveGeometry a) (saveState a).

Definition set_theme_mode (v : Py.value) (a : app) : app :=
  App (font_name a) (font_size a) v (text_content a) (show_debug a)
    (styleSheet a) (text_area a) (text_area_font a) (geometry a)
    (dock_state a) (saveGeometry a) (saveState a).

Definition set_text_content (v : Py.value) (a : app) : app :=
  App (font_name a) (font_size a) (theme_mode a) v (show_debug a)
    (styleSheet a) (text_area a) (text_area_font a) (geometry a)
    (dock_state a) (saveGeometry a) (saveState a).

Definition set_show_debug (v : Py.value) (a : app) : app :=
  App (font_name a) (font_size a) (theme_mode a) (text_content a) v
    (styleSheet a) (text_area a) (text_area_font a) (geometry a)
    (dock_state a) (saveGeometry a) (saveState a).

Definition setStyleSheet (css : string) (a : app) : app :=
  App (font_name a) (font_size a) (theme_mode a) (text_content a)
    (show_debug a) css (text_area a) (text_area_font a) (geometry a)
    (dock_state a) (saveGeometry a) (saveState a).

Definition setFont (f : Py.value * Py.value) (a : app) : app :=
  App (font_name a) (font_size a) (theme_mode a) (text_content a)
    (show_debug a) (styleSheet a) (text_area a) (Some f) (geometry a)
    (dock_state a) (saveGeometry a) (saveState a).

Definition set_geometry (g : placement) (a : app) : app :=
  App (font_name a) (font_size a) (theme_mode a) (text_content a)
    (show_debug a) (styleSheet a) (text_area a) (text_area_font a) g
    (dock_state a) (saveGeometry a) (saveState a).

Definition set_dock_state (b : list ascii) (a : app) : app :=
  App (font_name a) (font_size a) (theme_mode a) (text_content a)
    (show_debug a) (styleSheet a) (text_area a) (text_area_font a)
    (geometry a) (Some b) (saveGeometry a) (saveState a).

(** ** Themes *)

(** The style sheet of the dark theme (lines 143-206), verbatim. *)
Definition dark_css : string := "
                QMainWindow {
                    background-color: #1e1e1e;
                }
                QToolBar {
                    background-color: #252525;
                    border: none;
                    padding: 5px;
                }
                QTextEdit {
                    background-color: #1e1e1e;
                    color: white;
                    selection-background-color: #0078d7;
                    selection-color: white;
                    border: none;
                }
                QPushButton {
                    background-color: #333;
                    color: white;
                    border: none;
                    padding: 5px 10px;
                    min-width: 60px;
                }
                QPushButton:hover {
                    background-color: #444;
                }
                QPushButton:checked {
                    background-color: #0078d7;
                }
                QDialog {
                    background-color: #252525;
                }
                QLabel {
                    color: white;
                }
                QGroupBox {
                    color: white;
                    border: 1px solid #444;
                    margin-top: 10px;
                    padding-top: 15px;
                }
                QComboBox, QSpinBox, QFontComboBox {
                    background-color: #333;
                    color: white;
                    border: 1px solid #555;
                    padding: 3px;
                }
                QTabWidget::pane {
                    border: none;
                }
                QTabBar::tab {
                    background: #252525;
                    color: white;
                    padding: 8px;
                    border: none;
                }
                QTabBar::tab:selected {
                    background: #333;
                }
                QRadioButton {
                    color: white;
                    padding: 5px;
                }
            ".

(** The style sheet of the light theme (lines 208-272), verbatim. *)
Definition light_css : string := "
                QMainWindow {
                    background-color: #ffffff;
                }
                QToolBar {
                    background-color: #f0f0f0;
                    border: none;
                    padding: 5px;
                }
                QTextEdit {
                    background-color: #ffffff;
                    color: black;
                    selection-background-color: #0078d7;
                    selection-color: white;
                    border: none;
                }
                QPushButton {
                    background-color: #e0e0e0;
                    color: black;
                    border: none;
                    padding: 5px 10px;
                    min-width: 60px;
                }
                QPushButton:hover {
                    background-color: #d0d0d0;
                }
                QPushButton:checked {
                    background-color: #0078d7;
                    color: white;
                }
                QDialog {
                    background-color: #f0f0f0;
                }
                QLabel {
                    color: black;
                }
                QGroupBox {
                    color: black;
                    border: 1px solid #ccc;
                    margin-top: 10px;
                    padding-top: 15px;
                }
                QComboBox, QSpinBox, QFontComboBox {
                    background-color: #ffffff;
                    color: black;
                    border: 1px solid #ccc;
                    padding: 3px;
                }
                QTabWidget::pane {
                    border: none;
                }
                QTabBar::tab {
                    background: #f0f0f0;
                    color: black;
                    padding: 8px;
                    border: none;
                }
                QTabBar::tab:selected {
                    background: #ffffff;
                }
                QRadioButton {
                    color: black;
                    padding: 5px;
                }
            ".

(** [apply_theme(theme=None)].  The last branch calls the method again with
    [Dark]; [fuel] bounds the depth of that recursion, and
    [apply_theme_fuel_enough] shows that depth two is never exceeded. *)
Fixpoint apply_theme_rec (fuel : nat) (theme : option Py.value) (self : app)
    : option app :=
  match fuel with
  | O => None
  | S fuel' =>
      let self :=
        match theme with
        | Some t => set_theme_mode t self
        | None => self
        end in
      if Py.eq_str (theme_mode self) "Dark" then
        Some (setStyleSheet dark_css self)
      else if Py.eq_str (theme_mode self) "Light" then
        Some (setStyleSheet light_css self)
      else
        apply_theme_rec fuel' (Some (Py.VStr "Dark")) self
  end.

Definition apply_theme (theme : option Py.value) (self : app) : app :=
  match apply_theme_rec 2 theme self with
  | Some self' => self'
  | None => self
  end.

(** [apply_font]: the font of the text area is built from the two
    attributes. *)
Definition apply_font (self : app) : app :=
  setFont (font_name self, font_size self) self.

(** ** Loading and saving *)

Import QSettings.

(** [restoreGeometry] and [restoreState] take a byte array; any other
    argument is a type error of the binding. *)
Definition restoreGeometry (v : Py.value) (self : app) : Py.result app :=
  match v with
  | Py.VBytes b => Py.Ok (set_geometry (Restored b) self)
  | _ => Py.Raise Py.TypeError
  end.

Definition restoreState (v : Py.value) (self : app) : Py.result app :=
  match v with
  | Py.VBytes b => Py.Ok (set_dock_state b self)
  | _ => Py.Raise Py.TypeError
  end.

Definition setGeometry (x y w h : Z) (self : app) : app :=
  set_geometry (Rect x y w h) self.

(** [save_settings_to_file] (lines 450-458): seven [setValue] calls, in the
    order of the source.  It reads the window and writes only the store. *)
Definition save_settings_to_file (fmt : view) (self : app)
    (settings : store) : store :=
  let settings := setValue fmt "font_name" (font_name self) settings in
  let settings := setValue fmt "font_size" (font_size self) settings in
  let settings := setValue fmt "theme_mode" (theme_mode self) settings in
  let settings :=
    setValue fmt "text_content" (Py.VStr (text_area self)) settings in
  let settings :=
    setValue fmt "window_geometry" (Py.VBytes (saveGeometry self)) settings in
  let settings :=
    setValue fmt "window_state" (Py.VBytes (saveState self)) settings in
  setValue fmt "show_debug" (show_debug self) settings.

(** [load_settings] (lines 460-479). *)
Definition load_settings (py : Py.interp) (settings : store) (self : app)
    : Py.result app :=
  let self := set_font_name (value "font_name" (Py.VStr "Arial") settings) self in
  n ← Py.int py (value "font_size" (Py.VInt 16) settings);
  let self := set_font_size (Py.VInt n) self in
  let self := set_theme_mode (value "theme_mode" (Py.VStr "Dark") settings) self in
  let self := set_text_content (value "text_content" (Py.VStr "") settings) self in
  let self :=
    set_show_debug
      (Py.VBool (Py.eq_str (value "show_debug" (Py.VStr "false") settings) "true"))
      self in
  let geometry := value "window_geometry" Py.VNone settings in
  self ← (if Py.truthy geometry then restoreGeometry geometry self
          else Py.Ok (setGeometry 100 100 800 600 self));
  let state := value "window_state" Py.VNone settings in
  if Py.truthy state then restoreState state self else Py.Ok self.

(** [closeEvent] (lines 481-485). *)
Definition closeEvent (fmt : view) (self : app) (settings : store)
    : app * store :=
  let self := set_text_content (Py.VStr (text_area self)) self in
  (self, save_settings_to_file fmt self settings).

(** The widgets of the settings dialog as [save_settings] reads them: the id
    of the checked theme button (0 System, 1 Dark, 2 Light), the family of
    the font box, the value of the size box and the debug check box. *)
Record dialog : Type := Dialog {
  checkedId : Z;
  family : string;
  size_value : Z;
  isChecked : bool
}.

(** [save_settings] (lines 415-448).  The debug console it shows or hides is
    not part of the modelled state. *)
Definition save_settings (fmt : view) (d : dialog) (self : app)
    (settings : store) : app * store :=
  let theme_id := checkedId d in
  let self :=
    if Z.eqb theme_id 0 then set_theme_mode (Py.VStr "System") self
    else if Z.eqb theme_id 1 then set_theme_mode (Py.VStr "Dark") self
    else set_theme_mode (Py.VStr "Light") self in
  let self := set_font_name (Py.VStr (family d)) self in
  let self := set_font_size (Py.VInt (size_value d)) self in
  let self := set_show_debug (Py.VBool (isChecked d)) self in
  let self := apply_theme None self in
  let self := apply_font self in
  (self, save_settings_to_file fmt self settings).


(** The window object before the constructor's defaults and [load_settings]
    have run. *)
Definition blank : app :=
  App Py.VNone Py.VNone Py.VNone Py.VNone Py.VNone "" "" None Unplaced None [] [].

(** The window of a running editor at the defaults, with [area] in the text
    area and [content] in the [text_content] attribute. *)
Definition editing (size : Z) (debug : bool) (content area : string) : app :=
  App (Py.VStr "Arial") (Py.VInt size) (Py.VStr "Dark") (Py.VStr content)
    (Py.VBool debug) dark_css area
    (Some (Py.VStr "Arial", Py.VInt size)) (Rect 100 100 800 600) None [] [].

(** ** Decimal digits

    The value of a digit sequence of the standard library, read most
    significant digit first after [acc], and its characters; used to relate
    [decimal] to [Py.int]. *)

Fixpoint uint_acc (d : Decimal.uint) (acc : Z) : Z :=
  match d with
  | Decimal.Nil => acc
  | Decimal.D0 l => uint_acc l (acc * 10 + 0)
  | Decimal.D1 l => uint_acc l (acc * 10 + 1)
  | Decimal.D2 l => uint_acc l (acc * 10 + 2)
  | Decimal.D3 l => uint_acc l (acc * 10 + 3)
  | Decimal.D4 l => uint_acc l (acc * 10 + 4)
  | Decimal.D5 l => uint_acc l (acc * 10 + 5)
  | Decimal.D6 l => uint_acc l (acc * 10 + 6)
  | Decimal.D7 l => uint_acc l (acc * 10 + 7)
  | Decimal.D8 l => uint_acc l (acc * 10 + 8)
  | Decimal.D9 l => uint_acc l (acc * 10 + 9)
  end.

Definition chars (d : Decimal.uint) : list ascii :=
  list_ascii_of_string (NilEmpty.string_of_uint d).

(** A digit sequence that starts with a digit other than zero. *)
Definition head_nonzero (d : Decimal.uint) : Prop :=
  match d with
  | Decimal.Nil | Decimal.D0 _ => False
  | _ => True
  end.

(** ** The rest of the window

    The constructor, the window icon, the debug console and the settings
    dialog: the code around the settings store. *)

Definition set_text_area (text : string) (a : app) : app :=
  App (font_name a) (font_size a) (theme_mode a) (text_content a)
    (show_debug a) (styleSheet a) text (text_area_font a) (geometry a)
    (dock_state a) (saveGeometry a) (saveState a).

Definition set_saved_blobs (g s : list ascii) (a : app) : app :=
  App (font_name a) (font_size a) (theme_mode a) (text_content a)
    (show_debug a) (styleSheet a) (text_area a) (text_area_font a)
    (geometry a) (dock_state a) g s.

(** *** Arguments of toolkit calls

    The binding converts a Python value to the C++ parameter type or raises:
    an [int] parameter takes an [int] (a [bool] is one) that fits the C
    [int], and raises [OverflowError] for one that does not; a [bool]
    parameter takes a [bool] or an [int]; a text parameter takes a [str] or
    [None] (the null string); anything else is a [TypeError]. *)

Module PyQt.

(** The range of the C [int]. *)
Definition fits_int (n : Z) : bool :=
  Z.leb (- 2 ^ 31) n && Z.ltb n (2 ^ 31).

Definition int_arg (v : Py.value) : Py.result Z :=
  match v with
  | Py.VInt n => if fits_int n then Py.Ok n else Py.Raise Py.OverflowError
  | Py.VBool b => Py.Ok (if b then 1 else 0)
  | _ => Py.Raise Py.TypeError
  end.

Definition bool_arg (v : Py.value) : Py.result bool :=
  match v with
  | Py.VBool b => Py.Ok b
  | Py.VInt n => Py.Ok (negb (Z.eqb n 0))
  | _ => Py.Raise Py.TypeError
  end.

Definition str_arg (v : Py.value) : Py.result string :=
  match v with
  | Py.VStr s => Py.Ok s
  | Py.VNone => Py.Ok ""
  | _ => Py.Raise Py.TypeError
  end.

(** [b != v] for a [bool] [b]: equal only to the same [bool] and to the
    [int] 0 or 1 of the same truth value. *)
Definition ne_bool (b : bool) (v : Py.value) : bool :=
  match v with
  | Py.VBool b' => negb (Bool.eqb b b')
  | Py.VInt n => negb (Z.eqb n (if b then 1 else 0))
  | _ => true
  end.

End PyQt.

(** *** Time stamps of the debug console (line 81) *)

(** A reading of [datetime.now()]: hour 0-23, minute and second 0-59,
    microsecond 0-999999. *)
Record time : Type := Time {
  hour : Z;
  minute : Z;
  second : Z;
  microsecond : Z
}.

Definition digit_char (d : Z) : ascii := ascii_of_N (Z.to_N (48 + d)).

(** The last [width] decimal digits of [n], most significant first: a
    zero-padded field of [strftime]. *)
Fixpoint zero_padded (width : nat) (n : Z) : list ascii :=
  match width with
  | O => []
  | S width' => zero_padded width' (n / 10) ++ [digit_char (n mod 10)]
  end.

(** [strftime("%H:%M:%S.%f")]. *)
Definition strftime_HMSf (t : time) : list ascii :=
  zero_padded 2 (hour t) ++ ":"%char ::
  zero_padded 2 (minute t) ++ ":"%char ::
  zero_padded 2 (second t) ++ "."%char ::
  zero_padded 6 (microsecond t).

(** The slice [l[:-k]] for [k > 0]. *)
Definition drop_last (k : nat) (l : list ascii) : list ascii :=
  firstn (length l - k) l.

Definition timestamp (t : time) : string :=
  string_of_list_ascii (drop_last 3 (strftime_HMSf t)).

(** *** Window state *)

(** The default settings of the constructor (lines 36-40). *)
Definition defaults (fresh : app) : app :=
  set_show_debug (Py.VBool false)
    (set_text_content (Py.VStr "")
       (set_theme_mode (Py.VStr "Dark")
          (set_font_size (Py.VInt 16)
             (set_font_name (Py.VStr "Arial") fresh)))).

Module Window.

(** What the code asks of the platform: [os.path.join], [os.path.exists],
    the directory of the script, [QDir.currentPath()], [QDir.homePath()],
    the text [toPlainText()] returns once [setPlainText(s)] has been called
    (the widget normalises line ends), and the family the font box reports
    once [setCurrentFont(QFont(name))] has been called. *)
Record env : Type := Env {
  path_join : string -> string -> string;
  path_exists : string -> bool;
  file_dir : string;
  currentPath : string;
  homePath : string;
  plain_text : string -> string;
  shown_family : Py.value -> string
}.

Inductive icon : Type :=
  | IconFile (path : string)
  | SP_DesktopIcon.

(** The window: the attributes of [app], the lines of the debug console
    ([None] while [debug_console] is [None]), the visibility of every debug
    dock added to the window, newest first (the head is [debug_dock]; the
    list is empty while [debug_dock] is [None]), and the window icon. *)
Record state : Type := State {
  win : app;
  debug_console : option (list string);
  docks : list bool;
  window_icon : option icon
}.

Definition with_win (a : app) (w : state) : state :=
  State a (debug_console w) (docks w) (window_icon w).

Definition setWindowIcon (i : icon) (w : state) : state :=
  State (win w) (debug_console w) (docks w) (Some i).

(** [log_debug] (lines 75-85); [now] is the clock reading it would take. *)
Definition log_debug (now : time) (message : string) (w : state) : state :=
  if negb (Py.truthy (show_debug (win w))) then w
  else
    match debug_console w with
    | None => w
    | Some lines =>
        State (win w)
          (Some (lines ++ [("[" ++ timestamp now ++ "] " ++ message)%string])%list)
          (docks w) (window_icon w)
    end.

(** [_init_debug_console] (lines 63-73): a new, empty console in a new dock,
    shown or hidden as [show_debug] says.  When [setVisible] refuses the
    value, the [except] branch only prints and the new dock stays shown. *)
Definition _init_debug_console (w : state) : state :=
  let visible :=
    match PyQt.bool_arg (show_debug (win w)) with
    | Py.Ok b => b
    | Py.Raise _ => true
    end in
  State (win w) (Some []) (visible :: docks w) (window_icon w).

(** The four candidates of [_set_window_icon], in the order they are
    tried. *)
Definition icon_paths (e : env) : list string :=
  [path_join e (file_dir e) "icon.ico";
   path_join e (currentPath e) "icon.ico";
   path_join e (homePath e) "icon.ico";
   "icon.ico"].

(** The loop of lines 97-101: [Some] when it returned from inside the
    loop. *)
Fixpoint icon_loop (e : env) (now : time) (paths : list string) (w : state)
    : option state :=
  match paths with
  | [] => None
  | path :: rest =>
      if path_exists e path then
        Some (log_debug now ("Icon loaded from: " ++ path)
                (setWindowIcon (IconFile path) w))
      else icon_loop e now rest w
  end.

(** [_set_window_icon] (lines 87-108).  Nothing in the [try] block raises,
    so the [except] branch is left out. *)
Definition _set_window_icon (e : env) (now : time) (w : state) : state :=
  match icon_loop e now (icon_paths e) w with
  | Some w' => w'
  | None =>
      log_debug now "Using fallback system icon"
        (setWindowIcon SP_DesktopIcon w)
  end.

(** [setup_ui] (lines 110-136): the text area is created, empty. *)
Definition setup_ui (w : state) : state :=
  with_win (set_text_area "" (win w)) w.

(** [apply_font] with the argument check of [QFont(family, pointSize)]. *)
Definition apply_font (w : state) : Py.result state :=
  _ ← PyQt.str_arg (font_name (win w));
  _ ← PyQt.int_arg (font_size (win w));
  Py.Ok (with_win (apply_font (win w)) w).

(** [text_area.setPlainText(text)]. *)
Definition setPlainText (e : env) (text : Py.value) (w : state)
    : Py.result state :=
  s ← PyQt.str_arg text;
  Py.Ok (with_win (set_text_area (plain_text e s) (win w)) w).

(** [__init__] (lines 27-61).  [fresh] is the window as the base class
    constructor leaves it. *)
Definition init (py : Py.interp) (e : env) (now_icon now_started : time)
    (settings : store) (fresh : app) : Py.result state :=
  self ← load_settings py settings (defaults fresh);
  let w := State self None [] None in
  let w := _set_window_icon e now_icon w in
  let w :=
    if Py.truthy (show_debug (win w)) then
      log_debug now_started "Application started" (_init_debug_console w)
    else w in
  let w := with_win (apply_theme None (win w)) w in
  let w := setup_ui w in
  w ← apply_font w;
  setPlainText e (text_content (win w)) w.

(** [open_settings] (lines 281-408): what the widgets of the dialog show
    when it opens.  The size box is given the range 8-72 and then the
    current size, which it bounds to the range. *)
Definition open_settings (e : env) (w : state) : Py.result dialog :=
  let theme_id :=
    if Py.eq_str (theme_mode (win w)) "System" then 0
    else if Py.eq_str (theme_mode (win w)) "Dark" then 1
    else 2 in
  size ← PyQt.int_arg (font_size (win w));
  debug ← PyQt.bool_arg (show_debug (win w));
  Py.Ok (Dialog theme_id (shown_family e (font_name (win w)))
           (Z.max 8 (Z.min size 72)) debug).

(** [save_settings] (lines 415-448), with the debug console. *)
Definition save_settings (fmt : view) (now : time) (d : dialog) (w : state)
    (settings : store) : Py.result (state * store) :=
  let theme_id := checkedId d in
  let self := win w in
  let self :=
    if Z.eqb theme_id 0 then set_theme_mode (Py.VStr "System") self
    else if Z.eqb theme_id 1 then set_theme_mode (Py.VStr "Dark") self
    else set_theme_mode (Py.VStr "Light") self in
  let self := set_font_name (Py.VStr (family d)) self in
  let self := set_font_size (Py.VInt (size_value d)) self in
  let new_debug_setting := isChecked d in
  let debug_setting_changed := PyQt.ne_bool new_debug_setting (show_debug self) in
  let self := set_show_debug (Py.VBool new_debug_setting) self in
  let w := with_win (apply_theme None self) w in
  w ← apply_font w;
  let w :=
    if debug_setting_changed then
      if Py.truthy (show_debug (win w)) then
        log_debug now "Debug console enabled" (_init_debug_console w)
      else
        match docks w with
        | _ :: older =>
            State (win w) (debug_console w) (false :: older) (window_icon w)
        | [] => w
        end
    else w in
  Py.Ok (w, save_settings_to_file fmt (win w) settings).

(** [closeEvent] (lines 481-485) on the whole window. *)
Definition closeEvent (fmt : view) (w : state) (settings : store)
    : state * store :=
  let closed := closeEvent fmt (win w) settings in
  (with_win (fst closed) w, snd closed).

(** What can happen between the constructor and the close event: the user
    edits the text, moves or rearranges the window (which changes what
    [saveGeometry()] and [saveState()] answer), or presses Save in the
    settings dialog. *)
Inductive event : Type :=
  | Typed (text : string)
  | Moved (geometry_blob state_blob : list ascii)
  | SettingsSaved (d : dialog) (now : time).

Definition handle (fmt : view) (ev : event) (ws : state * store)
    : Py.result (state * store) :=
  match ev with
  | Typed text =>
      Py.Ok (with_win (set_text_area text (win (fst ws))) (fst ws), snd ws)
  | Moved g s =>
      Py.Ok (with_win (set_saved_blobs g s (win (fst ws))) (fst ws), snd ws)
  | SettingsSaved d now => save_settings fmt now d (fst ws) (snd ws)
  end.

Fixpoint run (fmt : view) (events : list event) (ws : state * store)
    : Py.result (state * store) :=
  match events with
  | [] => Py.Ok ws
  | ev :: rest =>
      ws' ← handle fmt ev ws;
      run fmt rest ws'
  end.

(** An event as the widgets can produce it: the size box of the dialog
    holds a C [int] (its range is 8 to 72). *)
Definition from_widgets (ev : event) : bool :=
  match ev with
  | SettingsSaved d _ => PyQt.fits_int (size_value d)
  | _ => true
  end.

End Window.

(** A POSIX platform on which only [/home/u/icon.ico] exists, whose text
    area returns text as it was set and whose font box shows the family it
    was given. *)
Definition posix_env : Window.env :=
  Window.Env
    (fun a b =>
       if String.prefix "/" b then b
       else if String.eqb a "" then b
       else if String.eqb (String.substring (String.length a - 1) 1 a) "/"
            then a ++ b
       else a ++ "/" ++ b)
    (fun path => String.eqb path "/home/u/icon.ico")
    "/opt/editor" "/tmp" "/home/u"
    (fun s => s)
    (fun v => match v with Py.VStr s => s | _ => "" end).

Definition noon : time := Time 12 0 0 0.

(** The state the handlers keep the window in: the size is an [int] that
    fits the C [int] and the font name a text the font constructor takes;
    the theme compares equal to [Dark] or to [Light] and the style sheet is
    the one of that theme; the text area has the font of the two attributes;
    [show_debug] is a [bool]; the newest debug dock, if any, is shown
    exactly when [show_debug] holds, every older dock is hidden, and there
    is a console when [show_debug] holds. *)
Definition consistent (w : Window.state) : Prop :=
  let self := Window.win w in
  (exists n, font_size self = Py.VInt n /\ PyQt.fits_int n = true) /\
  (exists s, PyQt.str_arg (font_name self) = Py.Ok s) /\
  (Py.eq_str (theme_mode self) "Dark" = true /\ styleSheet self = dark_css \/
   Py.eq_str (theme_mode self) "Light" = true /\ styleSheet self = light_css) /\
  text_area_font self = Some (font_name self, font_size self) /\
  exists debug,
    show_debug self = Py.VBool debug /\
    (debug = true -> is_Some (Window.debug_console w)) /\
    match Window.docks w with
    | [] => debug = false
    | newest :: older => newest = debug /\ Forall (fun v => v = false) older
    end.

(** One run of the editor: the constructor, the events of the session, and
    the close event.  The result is the window as it closes and the store it
    leaves. *)
Definition session (py : Py.interp) (fmt : view) (e : Window.env)
    (t1 t2 : time) (settings : store) (fresh : app)
    (events : list Window.event) : Py.result (Window.state * store) :=
  w ← Window.init py e t1 t2 settings fresh;
  ws ← Window.run fmt events (w, settings);
  Py.Ok (Window.closeEvent fmt (fst ws) (snd ws)).


(** A stored window blob that [load_settings] can handle: a falsy value
    (missing, [None], empty, zero or [False]: nothing is restored) or a byte
    array. *)
Definition blob_ok (v : Py.value) : Prop :=
  Py.truthy v = false \/ exists b, v = Py.VBytes b.

(** * Properties *)

Example int_samples :
  forall py,
    Py.int py (Py.VStr "16") = Py.Ok 16 /\
    Py.int py (Py.VStr " -7 ") = Py.Ok (-7) /\
    Py.int py (Py.VStr "1_000") = Py.Ok 1000 /\
    Py.int py (Py.VStr "0012") = Py.Ok 12 /\
    Py.int py (Py.VStr "1__0") = Py.Raise Py.ValueError /\
    Py.int py (Py.VStr "") = Py.Raise Py.ValueError /\
    Py.int py (Py.VStr "12abc") = Py.Raise Py.ValueError /\
    Py.int py (Py.VStr (String (ascii_of_N 28) "12")) = Py.Raise Py.ValueError /\
    Py.int py (Py.VBytes (list_ascii_of_string "12")) = Py.Ok 12 /\
    Py.int py Py.VNone = Py.Raise Py.TypeError.
Proof. intros py. repeat split; reflexivity. Qed.

Example eq_str_samples :
  Py.eq_str (Py.VStr "Dark") "Dark" = true /\
  Py.eq_str (Py.VBytes (list_ascii_of_string "Dark")) "Dark" = true /\
  Py.eq_str (Py.VBytes (list_ascii_of_string "dark")) "Dark" = false /\
  Py.eq_str (Py.VBool true) "true" = false.
Proof. repeat split; reflexivity. Qed.

Example load_samples :
  forall py,
    load_settings py ∅ blank =
      Py.Ok (App (Py.VStr "Arial") (Py.VInt 16) (Py.VStr "Dark") (Py.VStr "")
               (Py.VBool false) "" "" None (Rect 100 100 800 600) None [] []) /\
    load_settings py {["font_size" := Py.VStr "abc"]} blank
    = Py.Raise Py.ValueError /\
    load_settings py {["font_size" := Py.VStr " 12 "]} blank =
      Py.Ok (App (Py.VStr "Arial") (Py.VInt 12) (Py.VStr "Dark") (Py.VStr "")
               (Py.VBool false) "" "" None (Rect 100 100 800 600) None [] []) /\
    load_settings py {["window_geometry" := Py.VStr "x"]} blank
    = Py.Raise Py.TypeError /\
    save_settings_to_file IniFile (set_font_size (Py.VInt 72) blank) ∅
      !! "font_size"
    = Some (Py.VStr "72") /\
    save_settings_to_file Live (set_font_size (Py.VInt 72) blank) ∅
      !! "font_size"
    = Some (Py.VInt 72).
Proof. intros py. repeat split; vm_compute; reflexivity. Qed.

(** ** Decimal text is read back by [int] *)

Section DecimalText.

Import Decimal.

Lemma digits_after_chars (d : uint) :
  forall acc, Py.digits_after acc (chars d) = Some (uint_acc d acc).
Proof.
  induction d as [|l IH|l IH|l IH|l IH|l IH|l IH|l IH|l IH|l IH|l IH];
    intros acc; [reflexivity | ..]; apply (IH _).
Qed.

Lemma of_uint_acc_Z (d : uint) :
  forall p, Z.pos (Pos.of_uint_acc d p) = uint_acc d (Z.pos p).
Proof.
  induction d as [|l IH|l IH|l IH|l IH|l IH|l IH|l IH|l IH|l IH|l IH];
    intros p; cbn [Pos.of_uint_acc uint_acc]; [reflexivity | ..];
    rewrite IH; f_equal; lia.
Qed.

Lemma of_uint_Z (d : uint) : Z.of_uint d = uint_acc d 0.
Proof.
  unfold Z.of_uint.
  induction d as [|l IH|l IH|l IH|l IH|l IH|l IH|l IH|l IH|l IH|l IH];
    cbn [Pos.of_uint uint_acc Z.of_N]; [reflexivity | exact IH | ..];
    apply of_uint_acc_Z.
Qed.

Lemma unsigned_of_chars (d : uint) :
  Py.unsigned_of (list_ascii_of_string (NilZero.string_of_uint d))
  = Some (Z.of_uint d).
Proof.
  rewrite of_uint_Z.
  destruct d; [reflexivity | ..]; apply (digits_after_chars d).
Qed.

Lemma chars_no_space (d : uint) :
  Forall (fun c => Py.is_space c = false) (chars d).
Proof. induction d; constructor; (reflexivity || assumption). Qed.

Lemma lstrip_no_space (l : list ascii) :
  Forall (fun c => Py.is_space c = false) l -> Py.lstrip l = l.
Proof. destruct 1 as [|c r Hc _]; [reflexivity | simpl; now rewrite Hc]. Qed.

Lemma rstrip_no_space (l : list ascii) :
  Forall (fun c => Py.is_space c = false) l -> Py.rstrip l = l.
Proof.
  induction 1 as [|c r Hc _ IH]; [reflexivity |].
  simpl. rewrite IH, Hc. now destruct r.
Qed.

Lemma strip_no_space (l : list ascii) :
  Forall (fun c => Py.is_space c = false) l -> Py.strip l = l.
Proof.
  intros H. unfold Py.strip. rewrite (lstrip_no_space l H).
  now apply rstrip_no_space.
Qed.

Lemma decimal_no_space (i : int) :
  Forall (fun c => Py.is_space c = false)
    (list_ascii_of_string (NilZero.string_of_int i)).
Proof.
  destruct i as [d|d]; simpl.
  - destruct d; try apply (chars_no_space (_ d)); repeat constructor.
  - constructor; [reflexivity |].
    destruct d; try apply (chars_no_space (_ d)); repeat constructor.
Qed.

Lemma int_of_text_decimal (i : int) :
  Py.int_of_text (list_ascii_of_string (NilZero.string_of_int i))
  = Some (Z.of_int i).
Proof.
  unfold Py.int_of_text.
  rewrite (strip_no_space _ (decimal_no_space i)).
  destruct i as [d|d].
  - cbn [NilZero.string_of_int Z.of_int]. rewrite <- unsigned_of_chars.
    destruct d; reflexivity.
  - cbn [NilZero.string_of_int Z.of_int list_ascii_of_string].
    replace (Ascii.eqb "-" "-") with true by reflexivity.
    now rewrite unsigned_of_chars.
Qed.

(** The characters of decimal text are ASCII. *)
Lemma chars_ascii (d : uint) : Py.is_ascii (chars d) = true.
Proof. induction d; cbn; (reflexivity || assumption). Qed.

Lemma decimal_ascii (i : int) :
  Py.is_ascii (list_ascii_of_string (NilZero.string_of_int i)) = true.
Proof.
  destruct i as [d|d]; simpl;
    destruct d; try apply (chars_ascii (_ d)); reflexivity.
Qed.

(** The length of decimal text: one character per digit. *)
Lemma chars_length (d : uint) : length (chars d) = nb_digits d.
Proof. induction d; cbn; (reflexivity || now f_equal). Qed.

Lemma string_of_uint_length (d : uint) :
  (length (list_ascii_of_string (NilZero.string_of_uint d))
   <= 1 + nb_digits d)%nat.
Proof.
  destruct d as [|l|l|l|l|l|l|l|l|l|l]; [cbn; lia | ..];
    match goal with
    | |- (length (list_ascii_of_string (NilZero.string_of_uint ?x)) <= _)%nat =>
        change (list_ascii_of_string (NilZero.string_of_uint x)) with (chars x);
        rewrite (chars_length x); lia
    end.
Qed.

Lemma decimal_length (i : int) :
  (length (list_ascii_of_string (NilZero.string_of_int i))
   <= 2 + match i with Pos d | Neg d => nb_digits d end)%nat.
Proof.
  destruct i as [d|d]; cbn [NilZero.string_of_int list_ascii_of_string length];
    pose proof (string_of_uint_length d); lia.
Qed.

(** A digit sequence after [acc] is worth at least [acc] shifted by its
    length. *)
Lemma uint_acc_lower (d : uint) :
  forall acc, 0 <= acc -> acc * 10 ^ Z.of_nat (nb_digits d) <= uint_acc d acc.
Proof.
  induction d as [|l IH|l IH|l IH|l IH|l IH|l IH|l IH|l IH|l IH|l IH];
    intros acc Hacc; cbn [nb_digits uint_acc];
    [change (10 ^ Z.of_nat 0) with 1; lia | ..];
    rewrite Nat2Z.inj_succ, Z.pow_succ_r by lia;
    (etransitivity; [| apply IH; lia]);
    pose proof (Z.pow_nonneg 10 (Z.of_nat (nb_digits l)) ltac:(lia)); nia.
Qed.

Lemma head_nonzero_lower (d : uint) :
  head_nonzero d -> 10 ^ (Z.of_nat (nb_digits d) - 1) <= uint_acc d 0.
Proof.
  destruct d as [|l|l|l|l|l|l|l|l|l|l]; cbn [head_nonzero];
    try contradiction; intros _; cbn [nb_digits uint_acc];
    rewrite Nat2Z.inj_succ;
    replace (Z.succ (Z.of_nat (nb_digits l)) - 1)
      with (Z.of_nat (nb_digits l)) by lia;
    (etransitivity; [| apply uint_acc_lower; lia]);
    pose proof (Z.pow_nonneg 10 (Z.of_nat (nb_digits l)) ltac:(lia)); nia.
Qed.

Lemma to_uint_head_nonzero (p : positive) : head_nonzero (Pos.to_uint p).
Proof.
  pose proof (DecimalPos.Unsigned.to_of (Pos.to_uint p)) as H.
  rewrite DecimalPos.Unsigned.of_to in H. cbn [N.to_uint] in H.
  pose proof (DecimalPos.Unsigned.to_uint_nonzero p) as Hnz.
  unfold unorm in H.
  pose proof (DecimalFacts.nzhead_nonzero (Pos.to_uint p)) as Hhead.
  destruct (nzhead (Pos.to_uint p)) eqn:Hd;
    rewrite H in *; try exact I.
  - now contradiction Hnz.
  - now contradiction (Hhead u).
Qed.

Lemma to_uint_digits (p : positive) :
  Z.pos p < 2 ^ 64 -> (nb_digits (Pos.to_uint p) <= 20)%nat.
Proof.
  intros Hp.
  pose proof (head_nonzero_lower _ (to_uint_head_nonzero p)) as Hlow.
  rewrite <- of_uint_Z in Hlow.
  change (Z.of_uint (Pos.to_uint p)) with (Z.of_int (Z.to_int (Z.pos p))) in Hlow.
  rewrite DecimalZ.of_to in Hlow.
  destruct (Nat.le_gt_cases (nb_digits (Pos.to_uint p)) 20) as [H | H];
    [exact H | exfalso].
  assert (10 ^ 20 <= 10 ^ (Z.of_nat (nb_digits (Pos.to_uint p)) - 1))
    by (apply Z.pow_le_mono_r; lia).
  assert (2 ^ 64 < 10 ^ 20) by reflexivity.
  lia.
Qed.

Lemma decimal_short (n : Z) :
  - 2 ^ 64 < n < 2 ^ 64 ->
  (length (list_ascii_of_string (QSettings.decimal n)) <= 640)%nat.
Proof.
  intros Hn. unfold QSettings.decimal.
  pose proof (decimal_length (Z.to_int n)) as Hlen.
  destruct n as [|p|p]; cbn [Z.to_int] in *.
  - cbn in *. lia.
  - pose proof (to_uint_digits p ltac:(lia)). lia.
  - pose proof (to_uint_digits p ltac:(lia)). lia.
Qed.

End DecimalText.

(** [int] reads the decimal text of an integer of up to 64 bits back as
    that integer, whatever the interpreter. *)
Lemma int_decimal (py : Py.interp) (n : Z) :
  - 2 ^ 64 < n < 2 ^ 64 ->
  Py.int py (Py.VStr (decimal n)) = Py.Ok n.
Proof.
  intros Hn. unfold Py.int, Py.int_of_str. cbv zeta.
  unfold decimal at 1. rewrite decimal_ascii. cbn [negb].
  apply decimal_short in Hn. apply Nat.leb_le in Hn.
  rewrite Hn. unfold decimal.
  now rewrite int_of_text_decimal, DecimalZ.of_to.
Qed.

(** Whatever the format, a stored integer converts back to itself. *)
Lemma int_stored (py : Py.interp) (fmt : format) (n : Z) :
  Py.int py (stored fmt (Py.VInt n)) = Py.Ok n.
Proof.
  destruct fmt; [| reflexivity]. cbn [stored].
  destruct (Z.leb (- 2 ^ 63) n && Z.ltb n (2 ^ 64)) eqn:Hrange;
    [| reflexivity].
  apply andb_true_iff in Hrange as [H1 H2].
  apply Z.leb_le in H1. apply Z.ltb_lt in H2.
  apply int_decimal. lia.
Qed.

Lemma int_read_back (py : Py.interp) (vw : view) (n : Z) :
  Py.int py (read_back vw (Py.VInt n)) = Py.Ok n.
Proof. destruct vw as [|fmt]; [reflexivity | apply int_stored]. Qed.

(** ** [apply_theme] *)


(** A value that compares equal to a literal is that [str] or a byte array
    of its bytes. *)
Lemma eq_str_true (v : Py.value) (lit : string) :
  Py.eq_str v lit = true ->
  v = Py.VStr lit \/ v = Py.VBytes (list_ascii_of_string lit).
Proof.
  destruct v as [| | |s|b]; simpl; try discriminate; intros H;
    apply String.eqb_eq in H.
  - left. now subst.
  - right. subst. now rewrite list_ascii_of_string_of_list_ascii.
Qed.

Lemma eq_str_VStr (s lit : string) :
  Py.eq_str (Py.VStr s) lit = true -> s = lit.
Proof. apply String.eqb_eq. Qed.

(** The three outcomes of [apply_theme], by the value the first two tests
    see. *)
Lemma apply_theme_cases (theme : option Py.value) (self : app) :
  let seen := match theme with Some t => t | None => theme_mode self end in
  apply_theme theme self =
    if Py.eq_str seen "Dark" then
      setStyleSheet dark_css (set_theme_mode seen self)
    else if Py.eq_str seen "Light" then
      setStyleSheet light_css (set_theme_mode seen self)
    else setStyleSheet dark_css (set_theme_mode (Py.VStr "Dark") self).
Proof.
  destruct self; destruct theme as [t|]; cbv zeta; unfold apply_theme;
    cbn -[dark_css light_css];
    repeat (match goal with |- context [Py.eq_str ?v ?l] =>
              destruct (Py.eq_str v l) eqn:? end; cbn -[dark_css light_css]);
    reflexivity.
Qed.

(** After [apply_theme] the theme compares equal to [Dark] with the dark
    sheet installed, or to [Light] with the light one. *)
Lemma apply_theme_sheet (theme : option Py.value) (self : app) :
  Py.eq_str (theme_mode (apply_theme theme self)) "Dark" = true /\
  styleSheet (apply_theme theme self) = dark_css \/
  Py.eq_str (theme_mode (apply_theme theme self)) "Light" = true /\
  styleSheet (apply_theme theme self) = light_css.
Proof.
  rewrite apply_theme_cases. cbv zeta.
  set (seen := match theme with Some t => t | None => theme_mode self end).
  destruct (Py.eq_str seen "Dark") eqn:HD.
  - left. split; [| reflexivity]. now destruct self.
  - destruct (Py.eq_str seen "Light") eqn:HL.
    + right. split; [| reflexivity]. now destruct self.
    + left. split; reflexivity.
Qed.

(** When the theme the tests see is a [str], the attribute is the [str]
    [Dark] or [Light] afterwards. *)
Lemma apply_theme_mode_str (s : string) (self : app) :
  theme_mode (apply_theme (Some (Py.VStr s)) self) = Py.VStr "Dark" \/
  theme_mode (apply_theme (Some (Py.VStr s)) self) = Py.VStr "Light".
Proof.
  rewrite apply_theme_cases. cbv zeta.
  destruct (Py.eq_str _ "Dark") eqn:HD.
  - left. apply eq_str_VStr in HD. now subst.
  - destruct (Py.eq_str _ "Light") eqn:HL.
    + right. apply eq_str_VStr in HL. now subst.
    + left. reflexivity.
Qed.

Lemma dark_light_differ : dark_css <> light_css.
Proof. intros H. apply String.eqb_eq in H. vm_compute in H. discriminate. Qed.

(** [apply_theme] touches the theme and the style sheet only. *)
Lemma apply_theme_frame (theme : option Py.value) (self : app) :
  font_name (apply_theme theme self) = font_name self /\
  font_size (apply_theme theme self) = font_size self /\
  text_content (apply_theme theme self) = text_content self /\
  show_debug (apply_theme theme self) = show_debug self /\
  text_area (apply_theme theme self) = text_area self /\
  saveGeometry (apply_theme theme self) = saveGeometry self /\
  saveState (apply_theme theme self) = saveState self.
Proof.
  rewrite apply_theme_cases. cbv zeta.
  destruct (Py.eq_str _ "Dark"); [| destruct (Py.eq_str _ "Light")];
    repeat split.
Qed.

(** ** What [save_settings_to_file] leaves in the store *)

Lemma read_back_str (vw : view) (s : string) :
  read_back vw (Py.VStr s) = Py.VStr s.
Proof. now destruct vw. Qed.

Lemma read_back_bytes (vw : view) (b : list ascii) :
  read_back vw (Py.VBytes b) = Py.VBytes b.
Proof. now destruct vw. Qed.

Ltac store_lookup :=
  unfold save_settings_to_file, setValue; cbv zeta;
  repeat (rewrite lookup_insert_ne by discriminate);
  rewrite ?lookup_insert_eq, ?read_back_str, ?read_back_bytes;
  try reflexivity.

Lemma saved_keys (vw : view) (self : app) (settings : store) :
  let settings' := save_settings_to_file vw self settings in
  settings' !! "font_name" = Some (read_back vw (font_name self)) /\
  settings' !! "font_size" = Some (read_back vw (font_size self)) /\
  settings' !! "theme_mode" = Some (read_back vw (theme_mode self)) /\
  settings' !! "text_content" = Some (Py.VStr (text_area self)) /\
  settings' !! "window_geometry" = Some (Py.VBytes (saveGeometry self)) /\
  settings' !! "window_state" = Some (Py.VBytes (saveState self)) /\
  settings' !! "show_debug" = Some (read_back vw (show_debug self)).
Proof. cbv zeta. repeat split; store_lookup. Qed.

Lemma saved_other_keys (vw : view) (self : app) (settings : store) (k : string) :
  k ∉ ["font_name"; "font_size"; "theme_mode"; "text_content";
       "window_geometry"; "window_state"; "show_debug"] ->
  save_settings_to_file vw self settings !! k = settings !! k.
Proof.
  intros Hk. unfold save_settings_to_file, setValue. cbv zeta.
  repeat (rewrite lookup_insert_ne;
          [| intros <-; apply Hk; repeat constructor]).
  reflexivity.
Qed.

Lemma saved_dom (vw : view) (self : app) (settings : store) :
  dom (save_settings_to_file vw self settings) =
    list_to_set ["font_name"; "font_size"; "theme_mode"; "text_content";
                 "window_geometry"; "window_state"; "show_debug"]
    ∪ dom settings.
Proof.
  unfold save_settings_to_file, setValue. cbv zeta.
  rewrite !dom_insert_L. cbn [list_to_set foldr].
  apply set_eq. intros k.
  rewrite !elem_of_union, !elem_of_singleton, elem_of_empty. tauto.
Qed.

(** ** [load_settings] after [save_settings_to_file] *)

(** When the saved [font_size] is an integer, a [load_settings] that reads
    the store afterwards returns normally, whatever the store held before
    and whatever the window's attributes were, and each attribute is what
    the store hands back in that view. *)
Lemma load_after_save (py : Py.interp) (vw : view) (p : app)
    (settings : store) (a : app) (n : Z) :
  font_size p = Py.VInt n ->
  exists a',
    load_settings py (save_settings_to_file vw p settings) a = Py.Ok a' /\
    font_name a' = read_back vw (font_name p) /\
    font_size a' = Py.VInt n /\
    theme_mode a' = read_back vw (theme_mode p) /\
    text_content a' = Py.VStr (text_area p) /\
    show_debug a' = Py.VBool (Py.eq_str (read_back vw (show_debug p)) "true").
Proof.
  intros Hsize.
  destruct (saved_keys vw p settings) as (Hn & Hs & Ht & Hc & Hg & Hw & Hd).
  cbv zeta in *. unfold load_settings, value.
  rewrite Hn, Hs, Ht, Hc, Hg, Hw, Hd, Hsize, int_read_back.
  cbn [mbind Py.result_bind Py.truthy].
  destruct (saveGeometry p) as [|g0 g], (saveState p) as [|w0 w];
    eexists; (split; [reflexivity | repeat split]).
Qed.

(** * The claims *)





(** C2: on the empty store [load_settings] returns normally, whatever the
    window's attributes were: the five preferences are [Arial], 16, [Dark],
    the empty text and [False]; no geometry or state blob is found, so the
    window is put at (100, 100, 800, 600) and the dock layout is left as it
    was. *)
Theorem load_empty_store (py : Py.interp) (a : app) :
  value "window_geometry" Py.VNone (∅ : store) = Py.VNone /\
  value "window_state" Py.VNone (∅ : store) = Py.VNone /\
  exists a',
    load_settings py ∅ a = Py.Ok a' /\
    font_name a' = Py.VStr "Arial" /\
    font_size a' = Py.VInt 16 /\
    theme_mode a' = Py.VStr "Dark" /\
    text_content a' = Py.VStr "" /\
    show_debug a' = Py.VBool false /\
    geometry a' = Rect 100 100 800 600 /\
    dock_state a' = dock_state a.
Proof.
  split; [reflexivity | split; [reflexivity |]].
  eexists. split; [reflexivity | repeat split].
Qed.

(** ** Stored values that are out of range or malformed *)

(** Replacing the stored theme by any text changes neither whether
    [load_settings] returns nor any other attribute: the text is copied to
    [theme_mode] as it is. *)
Lemma load_theme_text (py : Py.interp) (settings : store) (a a0 : app)
    (s : string) :
  load_settings py settings a = Py.Ok a0 ->
  load_settings py (<["theme_mode" := Py.VStr s]> settings) a
  = Py.Ok (set_theme_mode (Py.VStr s) a0).
Proof.
  unfold load_settings, value.
  rewrite lookup_insert_eq.
  repeat (rewrite lookup_insert_ne by discriminate).
  destruct (Py.int _ _) as [n|e]; cbn [mbind Py.result_bind]; [| discriminate].
  destruct (Py.truthy (match settings !! "window_geometry" with
                       | Some v => v | None => Py.VNone end)).
  - destruct (match settings !! "window_geometry" with
              | Some v => v | None => Py.VNone end);
      cbn [restoreGeometry mbind Py.result_bind]; try discriminate.
    destruct (Py.truthy _).
    + destruct (match settings !! "window_state" with
                | Some v => v | None => Py.VNone end);
        cbn [restoreState]; try discriminate.
      intros [= <-]. reflexivity.
    + intros [= <-]. reflexivity.
  - cbn [mbind Py.result_bind]. destruct (Py.truthy _).
    + destruct (match settings !! "window_state" with
                | Some v => v | None => Py.VNone end);
        cbn [restoreState]; try discriminate.
      intros [= <-]. reflexivity.
    + intros [= <-]. reflexivity.
Qed.

(** C3, as stated, fails: with [Blue] stored under [theme_mode],
    [load_settings] returns with [theme_mode] equal to [Blue], which is none
    of [System], [Dark], [Light]. *)
Lemma load_keeps_unknown_theme :
  exists a',
    load_settings Py.strict {["theme_mode" := Py.VStr "Blue"]} blank
    = Py.Ok a' /\
    theme_mode a' = Py.VStr "Blue" /\
    theme_mode a' <> Py.VStr "System" /\
    theme_mode a' <> Py.VStr "Dark" /\
    theme_mode a' <> Py.VStr "Light".
Proof.
  eexists. split; [vm_compute; reflexivity |].
  repeat split; discriminate.
Qed.

(** C3 (amended): whatever text is stored under [theme_mode], a
    [load_settings] that returns without it also returns with it, and copies
    the text to [theme_mode] unchanged; the fallback is in [apply_theme],
    which the constructor calls next: after it [theme_mode] is [Dark] or
    [Light], and it is [Dark] for every stored text other than these two. *)
Theorem load_then_apply_theme (py : Py.interp) (settings : store)
    (a a0 : app) (s : string) :
  load_settings py settings a = Py.Ok a0 ->
  exists a',
    load_settings py (<["theme_mode" := Py.VStr s]> settings) a = Py.Ok a' /\
    theme_mode a' = Py.VStr s /\
    (theme_mode (apply_theme None a') = Py.VStr "Dark" \/
     theme_mode (apply_theme None a') = Py.VStr "Light") /\
    (s <> "Dark" -> s <> "Light" ->
     theme_mode (apply_theme None a') = Py.VStr "Dark" /\
     styleSheet (apply_theme None a') = dark_css).
Proof.
  intros Hload. exists (set_theme_mode (Py.VStr s) a0).
  split; [now apply load_theme_text |].
  split; [reflexivity |].
  split.
  - rewrite apply_theme_cases. cbv zeta.
    cbn [theme_mode set_theme_mode].
    destruct (Py.eq_str (Py.VStr s) "Dark") eqn:HD.
    + left. apply eq_str_VStr in HD. now subst.
    + destruct (Py.eq_str (Py.VStr s) "Light") eqn:HL.
      * right. apply eq_str_VStr in HL. now subst.
      * left. reflexivity.
  - intros HD HL. rewrite apply_theme_cases. cbv zeta.
    cbn [theme_mode set_theme_mode Py.eq_str].
    apply String.eqb_neq in HD, HL. rewrite HD, HL. split; reflexivity.
Qed.

(** C3, witness: [Blue] over the empty store. *)
Lemma load_then_apply_theme_witness :
  load_settings Py.strict ∅ blank
  = Py.Ok (App (Py.VStr "Arial") (Py.VInt 16) (Py.VStr "Dark") (Py.VStr "")
             (Py.VBool false) "" "" None (Rect 100 100 800 600) None [] []) /\
  exists a',
    load_settings Py.strict (<["theme_mode" := Py.VStr "Blue"]> ∅) blank
    = Py.Ok a' /\
    theme_mode a' = Py.VStr "Blue" /\
    (theme_mode (apply_theme None a') = Py.VStr "Dark" \/
     theme_mode (apply_theme None a') = Py.VStr "Light") /\
    ("Blue" <> "Dark" -> "Blue" <> "Light" ->
     theme_mode (apply_theme None a') = Py.VStr "Dark" /\
     styleSheet (apply_theme None a') = dark_css).
Proof.
  split; [reflexivity |].
  eapply (load_then_apply_theme Py.strict ∅ blank _ "Blue").
  reflexivity.
Defined.

(** The text [abc] is ASCII and short: no interpreter accepts it. *)
Lemma int_abc (py : Py.interp) :
  Py.int_of_str py "abc" = None /\
  load_settings py {["font_size" := Py.VStr "abc"]} blank
  = Py.Raise Py.ValueError.
Proof. split; vm_compute; reflexivity. Qed.

(** C4, as stated, fails: with [abc] stored under [font_size],
    [load_settings] raises [ValueError]; no default is substituted. *)
Lemma load_malformed_font_size_raises :
  Py.int_of_str Py.strict "abc" = None /\
  load_settings Py.strict {["font_size" := Py.VStr "abc"]} blank
  = Py.Raise Py.ValueError.
Proof. exact (int_abc Py.strict). Qed.

(** C4 (amended): when the value stored under [font_size] is a text,
    [load_settings] raises [ValueError] exactly when [int] does not accept
    the text, whatever else the store holds; nothing is defaulted and no
    window state is returned. *)
Theorem load_malformed_font_size (py : Py.interp) (settings : store)
    (a : app) (s : string) :
  settings !! "font_size" = Some (Py.VStr s) ->
  (Py.int_of_str py s = None
   <-> load_settings py settings a = Py.Raise Py.ValueError).
Proof.
  intros Hkey. unfold load_settings, value. rewrite Hkey. cbn [Py.int].
  destruct (Py.int_of_str py s) as [n|]; cbn [mbind Py.result_bind].
  - split; [discriminate |].
    destruct (Py.truthy (match settings !! "window_geometry" with
                         | Some v => v | None => Py.VNone end)).
    + destruct (match settings !! "window_geometry" with
                | Some v => v | None => Py.VNone end);
        cbn [restoreGeometry mbind Py.result_bind]; try discriminate.
      destruct (Py.truthy _); [| discriminate].
      destruct (match settings !! "window_state" with
                | Some v => v | None => Py.VNone end);
        cbn [restoreState]; discriminate.
    + cbn [mbind Py.result_bind].
      destruct (Py.truthy _); [| discriminate].
      destruct (match settings !! "window_state" with
                | Some v => v | None => Py.VNone end);
        cbn [restoreState]; discriminate.
  - split; reflexivity.
Qed.

(** C4, witness: the text [12abc] next to a valid theme. *)
Lemma load_malformed_font_size_witness :
  let settings : store :=
    <["font_size" := Py.VStr "12abc"]> {["theme_mode" := Py.VStr "Light"]} in
  settings !! "font_size" = Some (Py.VStr "12abc") /\
  Py.int_of_str Py.strict "12abc" = None /\
  load_settings Py.strict settings blank = Py.Raise Py.ValueError.
Proof.
  cbv zeta. split; [reflexivity | split; [reflexivity |]].
  apply (load_malformed_font_size Py.strict _ blank "12abc"); reflexivity.
Defined.

(** ** Themes *)

(** C5: for every window, applying the theme [System] leaves exactly the
    state that applying [Dark] leaves, with the dark style sheet installed;
    the same holds when the theme is taken from the [theme_mode]
    attribute. *)
Theorem system_theme_is_dark (self : app) :
  apply_theme (Some (Py.VStr "System")) self
  = apply_theme (Some (Py.VStr "Dark")) self /\
  apply_theme None (set_theme_mode (Py.VStr "System") self)
  = apply_theme None (set_theme_mode (Py.VStr "Dark") self) /\
  styleSheet (apply_theme (Some (Py.VStr "System")) self) = dark_css /\
  styleSheet (apply_theme (Some (Py.VStr "Dark")) self) = dark_css /\
  styleSheet (apply_theme (Some (Py.VStr "Light")) self) = light_css.
Proof. destruct self. repeat split. Qed.




(** ** The close handler and the settings dialog *)

(** C7: on a close event the text of the text area is copied to
    [text_content], no other attribute changes, and the store becomes what
    [save_settings_to_file] makes of the window and the store before,
    whatever that held: each of the seven keys is bound to the value of the
    window at the close, [text_content] to the text of the text area, and no
    other key changes.  The next [load_settings] returns that text. *)
Theorem close_persists_text (py : Py.interp) (vw : view) (self : app)
    (settings : store) (a : app) (n : Z) :
  font_size self = Py.VInt n ->
  let closed := closeEvent vw self settings in
  fst closed = set_text_content (Py.VStr (text_area self)) self /\
  text_content (fst closed) = Py.VStr (text_area self) /\
  snd closed = save_settings_to_file vw (fst closed) settings /\
  snd closed !! "font_name" = Some (read_back vw (font_name self)) /\
  snd closed !! "font_size" = Some (read_back vw (font_size self)) /\
  snd closed !! "theme_mode" = Some (read_back vw (theme_mode self)) /\
  snd closed !! "text_content" = Some (Py.VStr (text_area self)) /\
  snd closed !! "window_geometry" = Some (Py.VBytes (saveGeometry self)) /\
  snd closed !! "window_state" = Some (Py.VBytes (saveState self)) /\
  snd closed !! "show_debug" = Some (read_back vw (show_debug self)) /\
  (forall k,
     k ∉ ["font_name"; "font_size"; "theme_mode"; "text_content";
          "window_geometry"; "window_state"; "show_debug"] ->
     snd closed !! k = settings !! k) /\
  exists a',
    load_settings py (snd closed) a = Py.Ok a' /\
    text_content a' = Py.VStr (text_area self).
Proof.
  intros Hsize. cbv zeta. unfold closeEvent. cbn [fst snd].
  set (self' := set_text_content (Py.VStr (text_area self)) self).
  destruct (saved_keys vw self' settings) as (Hn & Hs & Ht & Hc & Hg & Hw & Hd).
  cbv zeta in *.
  repeat (split; [first [reflexivity | assumption] |]).
  split; [intros k Hk; now apply saved_other_keys |].
  destruct (load_after_save py vw self' settings a n Hsize)
    as (a' & Hload & _ & _ & _ & Hc' & _).
  exists a'. split; assumption.
Qed.

(** C7, witness: the user has typed [hello] into a fresh editor and closes
    the window; the store was empty. *)
Lemma close_persists_text_witness :
  let self := editing 16 false "" "hello" in
  let closed := closeEvent IniFile self ∅ in
  font_size self = Py.VInt 16 /\
  fst closed = set_text_content (Py.VStr "hello") self /\
  text_content (fst closed) = Py.VStr "hello" /\
  snd closed = save_settings_to_file IniFile (fst closed) ∅ /\
  snd closed !! "font_name" = Some (Py.VStr "Arial") /\
  snd closed !! "font_size" = Some (Py.VStr "16") /\
  snd closed !! "theme_mode" = Some (Py.VStr "Dark") /\
  snd closed !! "text_content" = Some (Py.VStr "hello") /\
  snd closed !! "window_geometry" = Some (Py.VBytes []) /\
  snd closed !! "window_state" = Some (Py.VBytes []) /\
  snd closed !! "show_debug" = Some (Py.VStr "false") /\
  (forall k,
     k ∉ ["font_name"; "font_size"; "theme_mode"; "text_content";
          "window_geometry"; "window_state"; "show_debug"] ->
     snd closed !! k = (∅ : store) !! k) /\
  exists a',
    load_settings Py.strict (snd closed) blank = Py.Ok a' /\
    text_content a' = Py.VStr "hello".
Proof.
  cbv zeta. split; [reflexivity |].
  apply (close_persists_text Py.strict IniFile (editing 16 false "" "hello")
           ∅ blank 16).
  reflexivity.
Defined.

(** C8: after every [save_settings_to_file] each of the seven keys is bound,
    to the stored form of the value the source passes for it, whatever the
    store held under that key before; the keys of the store are the seven
    keys and those it already had. *)
Theorem save_writes_seven_keys (fmt : format) (self : app) (settings : store) :
  let settings' := save_settings_to_file fmt self settings in
  settings' !! "font_name" = Some (stored fmt (font_name self)) /\
  settings' !! "font_size" = Some (stored fmt (font_size self)) /\
  settings' !! "theme_mode" = Some (stored fmt (theme_mode self)) /\
  settings' !! "text_content" = Some (Py.VStr (text_area self)) /\
  settings' !! "window_geometry" = Some (Py.VBytes (saveGeometry self)) /\
  settings' !! "window_state" = Some (Py.VBytes (saveState self)) /\
  settings' !! "show_debug" = Some (stored fmt (show_debug self)) /\
  dom settings' =
    list_to_set ["font_name"; "font_size"; "theme_mode"; "text_content";
                 "window_geometry"; "window_state"; "show_debug"]
    ∪ dom settings.
Proof.
  cbv zeta.
  destruct (saved_keys fmt self settings) as (Hn & Hs & Ht & Hc & Hg & Hw & Hd).
  cbv zeta in *. cbn [read_back] in *.
  repeat (split; [assumption |]).
  apply saved_dom.
Qed.




(** C10: [save_settings_to_file] writes the text of the text area under
    [text_content]; the settings dialog's [save_settings] does so too and
    leaves the [text_content] attribute as it was, as do [apply_theme] and
    [apply_font]; [closeEvent] is the handler that sets the attribute, to the
    text of the text area. *)
Theorem save_persists_live_text (fmt : format) (d : dialog)
    (theme : option Py.value) (self : app) (settings : store) :
  save_settings_to_file fmt self settings !! "text_content"
  = Some (Py.VStr (text_area self)) /\
  text_content (fst (save_settings fmt d self settings)) = text_content self /\
  snd (save_settings fmt d self settings) !! "text_content"
  = Some (Py.VStr (text_area self)) /\
  text_content (apply_theme theme self) = text_content self /\
  text_content (apply_font self) = text_content self /\
  text_content (fst (closeEvent fmt self settings)) = Py.VStr (text_area self) /\
  snd (closeEvent fmt self settings) !! "text_content"
  = Some (Py.VStr (text_area self)).
Proof.
  split; [apply saved_keys |].
  assert (Hframe : forall x, text_content (apply_font (apply_theme None x))
                             = text_content x /\
                             text_area (apply_font (apply_theme None x))
                             = text_area x).
  { intros x. destruct (apply_theme_frame None x) as (_ & _ & Hc & _ & Ha & _).
    cbn [apply_font setFont text_content text_area]. now split. }
  split; [| split].
  - unfold save_settings. cbn [fst].
    destruct (Z.eqb (checkedId d) 0), (Z.eqb (checkedId d) 1);
      cbv zeta; now rewrite (proj1 (Hframe _)).
  - unfold save_settings. cbn [snd]. cbv zeta.
    match goal with |- save_settings_to_file ?f ?x ?st !! _ = _ =>
      destruct (saved_keys f x st) as (_ & _ & _ & Hc & _) end.
    cbv zeta in Hc. rewrite Hc, (proj2 (Hframe _)).
    now destruct (Z.eqb (checkedId d) 0), (Z.eqb (checkedId d) 1).
  - split; [apply apply_theme_frame |].
    split; [reflexivity |].
    split; [reflexivity |].
    unfold closeEvent. cbn [snd].
    match goal with |- save_settings_to_file ?f ?x ?st !! _ = _ =>
      destruct (saved_keys f x st) as (_ & _ & _ & Hc & _) end.
    exact Hc.
Qed.

(** * The code around the store *)

Example timestamp_sample :
  timestamp (Time 9 5 7 123999) = "09:05:07.123".
Proof. reflexivity. Qed.

Example init_sample :
  Window.init Py.strict posix_env noon noon ∅ blank =
    Py.Ok (Window.State
             (App (Py.VStr "Arial") (Py.VInt 16) (Py.VStr "Dark") (Py.VStr "")
                (Py.VBool false) dark_css ""
                (Some (Py.VStr "Arial", Py.VInt 16)) (Rect 100 100 800 600)
                None [] [])
             None [] (Some (Window.IconFile "/home/u/icon.ico"))).
Proof. vm_compute. reflexivity. Qed.

(** ** Time stamps *)

Section ZeroPadded.

Lemma digit_char_digit (d : Z) :
  0 <= d <= 9 -> Py.digit_of (digit_char d) = Some d.
Proof.
  intros Hd.
  assert (H : d = 0 \/ d = 1 \/ d = 2 \/ d = 3 \/ d = 4 \/
              d = 5 \/ d = 6 \/ d = 7 \/ d = 8 \/ d = 9) by lia.
  repeat (destruct H as [-> | H]; [reflexivity |]). now subst.
Qed.

Lemma zero_padded_length (k : nat) : forall n, length (zero_padded k n) = k.
Proof.
  induction k as [|k IH]; intros n; [reflexivity |].
  cbn [zero_padded]. rewrite length_app, IH. cbn [length]. lia.
Qed.

Lemma zero_padded_split (j k : nat) :
  forall n,
    zero_padded (j + k) n
    = (zero_padded k (n / 10 ^ Z.of_nat j) ++ zero_padded j n)%list.
Proof.
  induction j as [|j IH]; intros n.
  - cbn [Nat.add zero_padded]. change (10 ^ Z.of_nat 0) with 1.
    now rewrite Z.div_1_r, app_nil_r.
  - cbn [Nat.add zero_padded]. rewrite IH, app_assoc.
    rewrite Z.div_div by lia.
    now rewrite Nat2Z.inj_succ, Z.pow_succ_r by lia.
Qed.

End ZeroPadded.

Lemma string_of_list_ascii_length (l : list ascii) :
  String.length (string_of_list_ascii l) = length l.
Proof. induction l as [|c l IH]; [reflexivity | cbn; now rewrite IH]. Qed.

(** X1: the time stamp of a console line is [HH:MM:SS.mmm]: two digits, a
    colon, two digits, a colon, two digits, a point and three digits, twelve
    characters in all; the fields are the clock's hour, minute and second,
    zero-padded, and the microseconds divided by 1000, rounded down. *)
Theorem timestamp_milliseconds (t : time) :
  0 <= hour t < 24 ->
  0 <= minute t < 60 ->
  0 <= second t < 60 ->
  0 <= microsecond t < 1000000 ->
  exists h1 h2 m1 m2 s1 s2 u1 u2 u3 : Z,
    (0 <= h1 <= 9 /\ 0 <= h2 <= 9 /\ 0 <= m1 <= 9 /\ 0 <= m2 <= 9 /\
     0 <= s1 <= 9 /\ 0 <= s2 <= 9 /\
     0 <= u1 <= 9 /\ 0 <= u2 <= 9 /\ 0 <= u3 <= 9) /\
    timestamp t
    = string_of_list_ascii
        [digit_char h1; digit_char h2; ":"%char;
         digit_char m1; digit_char m2; ":"%char;
         digit_char s1; digit_char s2; "."%char;
         digit_char u1; digit_char u2; digit_char u3] /\
    String.length (timestamp t) = 12%nat /\
    hour t = 10 * h1 + h2 /\
    minute t = 10 * m1 + m2 /\
    second t = 10 * s1 + s2 /\
    microsecond t / 1000 = 100 * u1 + 10 * u2 + u3.
Proof.
  intros Hh Hm Hs Hu.
  exists (hour t / 10), (hour t mod 10), (minute t / 10), (minute t mod 10),
    (second t / 10), (second t mod 10),
    (microsecond t / 1000 / 100), (microsecond t / 1000 / 10 mod 10),
    (microsecond t / 1000 mod 10).
  assert (Hstamp :
    drop_last 3 (strftime_HMSf t)
    = (zero_padded 2 (hour t) ++ ":"%char :: zero_padded 2 (minute t) ++
       ":"%char :: zero_padded 2 (second t) ++ "."%char ::
       zero_padded 3 (microsecond t / 1000))%list).
  { unfold drop_last, strftime_HMSf.
    change (zero_padded 6 (microsecond t))
      with (zero_padded (3 + 3) (microsecond t)).
    rewrite (zero_padded_split 3 3 (microsecond t)).
    change (10 ^ Z.of_nat 3) with 1000.
    set (ms := zero_padded 3 (microsecond t / 1000)).
    set (low := zero_padded 3 (microsecond t)).
    replace (zero_padded 2 (hour t) ++ ":"%char :: zero_padded 2 (minute t) ++
             ":"%char :: zero_padded 2 (second t) ++ "."%char :: ms ++ low)%list
      with ((zero_padded 2 (hour t) ++ ":"%char :: zero_padded 2 (minute t) ++
             ":"%char :: zero_padded 2 (second t) ++ "."%char :: ms) ++ low)%list
      by (repeat (rewrite <- app_assoc; cbn [List.app]); reflexivity).
    apply take_app_length'. rewrite (length_app _ low).
    unfold low. rewrite zero_padded_length. lia. }
  assert (Hfields :
    (zero_padded 2 (hour t) ++ ":"%char :: zero_padded 2 (minute t) ++
     ":"%char :: zero_padded 2 (second t) ++ "."%char ::
     zero_padded 3 (microsecond t / 1000))%list
    = [digit_char (hour t / 10); digit_char (hour t mod 10); ":"%char;
       digit_char (minute t / 10); digit_char (minute t mod 10); ":"%char;
       digit_char (second t / 10); digit_char (second t mod 10); "."%char;
       digit_char (microsecond t / 1000 / 100);
       digit_char (microsecond t / 1000 / 10 mod 10);
       digit_char (microsecond t / 1000 mod 10)]).
  { cbn [zero_padded List.app].
    rewrite (Z.mod_small (hour t / 10) 10) by (Z.div_mod_to_equations; lia).
    rewrite (Z.mod_small (minute t / 10) 10) by (Z.div_mod_to_equations; lia).
    rewrite (Z.mod_small (second t / 10) 10) by (Z.div_mod_to_equations; lia).
    rewrite (Z.mod_small (microsecond t / 1000 / 10 / 10) 10)
      by (Z.div_mod_to_equations; lia).
    rewrite (Z.div_div (microsecond t / 1000) 10 10) by lia.
    reflexivity. }
  unfold timestamp. rewrite Hstamp, Hfields.
  split; [repeat split; Z.div_mod_to_equations; lia |].
  split; [reflexivity |].
  split; [reflexivity |].
  repeat split; Z.div_mod_to_equations; lia.
Qed.

(** X1, witness: seven seconds and 123999 microseconds past 09:05. *)
Lemma timestamp_milliseconds_witness :
  (0 <= 9 < 24 /\ 0 <= 5 < 60 /\ 0 <= 7 < 60 /\ 0 <= 123999 < 1000000) /\
  timestamp (Time 9 5 7 123999) = "09:05:07.123" /\
  exists h1 h2 m1 m2 s1 s2 u1 u2 u3 : Z,
    (0 <= h1 <= 9 /\ 0 <= h2 <= 9 /\ 0 <= m1 <= 9 /\ 0 <= m2 <= 9 /\
     0 <= s1 <= 9 /\ 0 <= s2 <= 9 /\
     0 <= u1 <= 9 /\ 0 <= u2 <= 9 /\ 0 <= u3 <= 9) /\
    timestamp (Time 9 5 7 123999)
    = string_of_list_ascii
        [digit_char h1; digit_char h2; ":"%char;
         digit_char m1; digit_char m2; ":"%char;
         digit_char s1; digit_char s2; "."%char;
         digit_char u1; digit_char u2; digit_char u3] /\
    String.length (timestamp (Time 9 5 7 123999)) = 12%nat /\
    9 = 10 * h1 + h2 /\
    5 = 10 * m1 + m2 /\
    7 = 10 * s1 + s2 /\
    123999 / 1000 = 100 * u1 + 10 * u2 + u3.
Proof.
  split; [lia |]. split; [reflexivity |].
  apply (timestamp_milliseconds (Time 9 5 7 123999)); cbn; lia.
Defined.

(** ** The window icon and the debug console *)

Lemma log_debug_frame (now : time) (message : string) (w : Window.state) :
  Window.win (Window.log_debug now message w) = Window.win w /\
  Window.docks (Window.log_debug now message w) = Window.docks w /\
  Window.window_icon (Window.log_debug now message w) = Window.window_icon w.
Proof.
  unfold Window.log_debug.
  destruct (negb _); [repeat split |].
  destruct (Window.debug_console w); repeat split.
Qed.

Lemma log_debug_no_console (now : time) (message : string) (w : Window.state) :
  Window.debug_console w = None -> Window.log_debug now message w = w.
Proof.
  intros H. unfold Window.log_debug. rewrite H. now destruct (negb _).
Qed.

Lemma icon_loop_spec (e : Window.env) (now : time) (w : Window.state)
    (paths : list string) :
  match Window.icon_loop e now paths w with
  | Some w' =>
      exists (i : nat) (p : string),
        paths !! i = Some p /\
        Window.path_exists e p = true /\
        (forall (j : nat) (q : string),
           (j < i)%nat -> paths !! j = Some q ->
           Window.path_exists e q = false) /\
        w' = Window.log_debug now ("Icon loaded from: " ++ p)
               (Window.setWindowIcon (Window.IconFile p) w)
  | None => forall q, q ∈ paths -> Window.path_exists e q = false
  end.
Proof.
  induction paths as [|path rest IH]; cbn [Window.icon_loop].
  - intros q Hq. now apply elem_of_nil in Hq.
  - destruct (Window.path_exists e path) eqn:Hpath.
    + exists 0%nat, path. repeat split; [assumption | intros j q Hj; lia].
    + destruct (Window.icon_loop e now rest w) as [w'|].
      * destruct IH as (i & p & Hi & Hp & Hbefore & ->).
        exists (S i), p. repeat split; try assumption.
        intros [|j] q Hj Hq; [now injection Hq as <- |].
        apply (Hbefore j q); [lia | exact Hq].
      * intros q Hq. apply elem_of_cons in Hq as [-> | Hq]; auto.
Qed.

Lemma set_window_icon_frame (e : Window.env) (now : time) (w : Window.state) :
  Window.win (Window._set_window_icon e now w) = Window.win w /\
  Window.docks (Window._set_window_icon e now w) = Window.docks w /\
  (Window.debug_console w = None ->
   Window.debug_console (Window._set_window_icon e now w) = None).
Proof.
  unfold Window._set_window_icon.
  pose proof (icon_loop_spec e now w (Window.icon_paths e)) as Hloop.
  destruct (Window.icon_loop e now (Window.icon_paths e) w) as [w'|].
  - destruct Hloop as (i & p & _ & _ & _ & ->).
    destruct (log_debug_frame now ("Icon loaded from: " ++ p)
                (Window.setWindowIcon (Window.IconFile p) w)) as (-> & -> & _).
    repeat split. intros Hnone. now rewrite log_debug_no_console.
  - destruct (log_debug_frame now "Using fallback system icon"
                (Window.setWindowIcon Window.SP_DesktopIcon w)) as (-> & -> & _).
    repeat split. intros Hnone. now rewrite log_debug_no_console.
Qed.

(** X2: [_set_window_icon] takes the first of the four candidates, in the
    order script directory, current directory, home directory, bare file
    name, that exists; when none exists it takes the system's desktop icon.
    It always sets an icon and touches nothing but the icon and the
    console. *)
Theorem set_window_icon_first_existing (e : Window.env) (now : time)
    (w : Window.state) :
  let w' := Window._set_window_icon e now w in
  Window.win w' = Window.win w /\
  Window.docks w' = Window.docks w /\
  match Window.window_icon w' with
  | Some (Window.IconFile p) =>
      exists i : nat,
        Window.icon_paths e !! i = Some p /\
        Window.path_exists e p = true /\
        forall (j : nat) (q : string),
          (j < i)%nat -> Window.icon_paths e !! j = Some q ->
          Window.path_exists e q = false
  | Some Window.SP_DesktopIcon =>
      forall q, q ∈ Window.icon_paths e -> Window.path_exists e q = false
  | None => False
  end.
Proof.
  cbv zeta. unfold Window._set_window_icon.
  pose proof (icon_loop_spec e now w (Window.icon_paths e)) as Hloop.
  destruct (Window.icon_loop e now (Window.icon_paths e) w) as [w'|].
  - destruct Hloop as (i & p & Hi & Hp & Hbefore & ->).
    destruct (log_debug_frame now ("Icon loaded from: " ++ p)
                (Window.setWindowIcon (Window.IconFile p) w)) as (-> & -> & ->).
    repeat split. exists i. auto.
  - destruct (log_debug_frame now "Using fallback system icon"
                (Window.setWindowIcon Window.SP_DesktopIcon w)) as (-> & -> & ->).
    repeat split. exact Hloop.
Qed.

(** ** The constructor *)

(** What a [load_settings] that returns has done: each preference is the
    stored value or its default, the size converted by [int]; nothing of the
    style sheet, the text area or its font is touched. *)
Lemma load_settings_inv (py : Py.interp) (settings : store) (a a' : app) :
  load_settings py settings a = Py.Ok a' ->
  (exists n, Py.int py (value "font_size" (Py.VInt 16) settings) = Py.Ok n /\
             font_size a' = Py.VInt n) /\
  font_name a' = value "font_name" (Py.VStr "Arial") settings /\
  theme_mode a' = value "theme_mode" (Py.VStr "Dark") settings /\
  text_content a' = value "text_content" (Py.VStr "") settings /\
  show_debug a'
  = Py.VBool (Py.eq_str (value "show_debug" (Py.VStr "false") settings) "true") /\
  styleSheet a' = styleSheet a /\
  text_area a' = text_area a /\
  text_area_font a' = text_area_font a /\
  saveGeometry a' = saveGeometry a /\
  saveState a' = saveState a.
Proof.
  unfold load_settings.
  destruct (Py.int _ _) as [n|e]; cbn [mbind Py.result_bind]; [| discriminate].
  destruct (Py.truthy (value "window_geometry" Py.VNone settings));
    [destruct (value "window_geometry" Py.VNone settings);
       cbn [restoreGeometry]; try discriminate |];
    cbn [mbind Py.result_bind];
    (destruct (Py.truthy (value "window_state" Py.VNone settings));
       [destruct (value "window_state" Py.VNone settings);
          cbn [restoreState]; try discriminate |]);
    intros [= <-]; (split; [exists n; split; reflexivity | repeat split]).
Qed.

(** The constructor, step by step: once [load_settings] has returned
    [self], the constructor raises only if the font name, the size or the
    loaded text is refused by the toolkit, and otherwise returns the window
    below. *)
Lemma init_eq (py : Py.interp) (e : Window.env) (t1 t2 : time)
    (settings : store) (fresh self : app) :
  load_settings py settings (defaults fresh) = Py.Ok self ->
  Window.init py e t1 t2 settings fresh
  = (_ ← PyQt.str_arg (font_name self);
     _ ← PyQt.int_arg (font_size self);
     text ← PyQt.str_arg (text_content self);
     Py.Ok (Window.State
              (set_text_area (Window.plain_text e text)
                 (apply_font (set_text_area "" (apply_theme None self))))
              (if Py.truthy (show_debug self)
               then Some ["[" ++ timestamp t2 ++ "] Application started"]
               else None)
              (if Py.truthy (show_debug self) then [true] else [])
              (Window.window_icon
                 (Window._set_window_icon e t1
                    (Window.State self None [] None))))).
Proof.
  intros Hload. unfold Window.init. rewrite Hload.
  cbn [mbind Py.result_bind].
  destruct (load_settings_inv _ _ _ _ Hload)
    as ((n & _ & Hsize) & _ & _ & _ & Hdebug & _).
  pose proof (set_window_icon_frame e t1 (Window.State self None [] None))
    as (Hwin & Hdocks & Hcons).
  set (w1 := Window._set_window_icon e t1 (Window.State self None [] None)) in *.
  cbn [Window.win Window.docks Window.debug_console] in Hwin, Hdocks, Hcons.
  rewrite Hwin.
  set (w2 := if Py.truthy (show_debug self) then _ else w1).
  assert (Hw2 : w2 = Window.State self
                  (if Py.truthy (show_debug self)
                   then Some ["[" ++ timestamp t2 ++ "] Application started"]
                   else None)
                  (if Py.truthy (show_debug self) then [true] else [])
                  (Window.window_icon w1)).
  { subst w2. rewrite Hdebug in *. cbn [Py.truthy].
    destruct (Py.eq_str _ "true").
    - unfold Window.log_debug, Window._init_debug_console.
      cbn [Window.win Window.debug_console Window.docks Window.window_icon].
      rewrite Hwin, Hdebug, Hdocks. reflexivity.
    - destruct w1 as [a c dk ic]. cbn in *. now rewrite Hwin, Hdocks, Hcons. }
  rewrite Hw2. clear Hw2 w2.
  unfold Window.apply_font, Window.setup_ui, Window.setPlainText, Window.with_win.
  cbn [Window.win Window.debug_console Window.docks Window.window_icon].
  destruct (apply_theme_frame None self) as (Hfn & Hfs & Hc & _).
  replace (font_name (set_text_area "" (apply_theme None self)))
    with (font_name self) by (symmetry; exact Hfn).
  replace (font_size (set_text_area "" (apply_theme None self)))
    with (font_size self) by (symmetry; exact Hfs).
  destruct (PyQt.str_arg (font_name self)) as [name|];
    cbn [mbind Py.result_bind]; [| reflexivity].
  destruct (PyQt.int_arg (font_size self)) as [k|];
    cbn [mbind Py.result_bind]; [| reflexivity].
  cbn [Window.win Window.debug_console Window.docks Window.window_icon].
  replace (text_content (apply_font (set_text_area "" (apply_theme None self))))
    with (text_content self) by (symmetry; exact Hc).
  reflexivity.
Qed.

Lemma int_arg_ok (v : Py.value) (k : Z) :
  PyQt.int_arg v = Py.Ok k ->
  PyQt.fits_int k = true /\
  (v = Py.VInt k \/ exists b, v = Py.VBool b).
Proof.
  destruct v as [|b|n| |]; cbn [PyQt.int_arg]; try discriminate.
  - intros [= <-]. split; [now destruct b | eauto].
  - destruct (PyQt.fits_int n) eqn:Hn; [| discriminate].
    intros [= <-]. auto.
Qed.

Lemma init_inv (py : Py.interp) (e : Window.env) (t1 t2 : time)
    (settings : store) (fresh : app) (w : Window.state) :
  Window.init py e t1 t2 settings fresh = Py.Ok w ->
  exists (self : app) (name text : string) (n : Z),
    load_settings py settings (defaults fresh) = Py.Ok self /\
    PyQt.str_arg (font_name self) = Py.Ok name /\
    font_size self = Py.VInt n /\
    PyQt.fits_int n = true /\
    PyQt.str_arg (text_content self) = Py.Ok text /\
    Window.win w
    = set_text_area (Window.plain_text e text)
        (apply_font (set_text_area "" (apply_theme None self))) /\
    Window.debug_console w
    = (if Py.truthy (show_debug self)
       then Some ["[" ++ timestamp t2 ++ "] Application started"]
       else None) /\
    Window.docks w = (if Py.truthy (show_debug self) then [true] else []) /\
    Window.window_icon w
    = Window.window_icon
        (Window._set_window_icon e t1 (Window.State self None [] None)).
Proof.
  intros Hinit.
  destruct (load_settings py settings (defaults fresh)) as [self|err] eqn:Hload.
  2: { unfold Window.init in Hinit. rewrite Hload in Hinit. discriminate. }
  rewrite (init_eq py e t1 t2 settings fresh self Hload) in Hinit.
  destruct (load_settings_inv _ _ _ _ Hload) as ((n & _ & Hsize) & _).
  destruct (PyQt.str_arg (font_name self)) as [name|] eqn:Hname;
    cbn [mbind Py.result_bind] in Hinit; [| discriminate].
  destruct (PyQt.int_arg (font_size self)) as [k|] eqn:Hk;
    cbn [mbind Py.result_bind] in Hinit; [| discriminate].
  destruct (PyQt.str_arg (text_content self)) as [text|] eqn:Htext;
    cbn [mbind Py.result_bind] in Hinit; [| discriminate].
  injection Hinit as <-. exists self, name, text, n.
  rewrite Hsize in Hk. destruct (int_arg_ok _ _ Hk) as [Hfits [[= ->] | [b [=]]]].
  repeat split; assumption.
Qed.

(** A value read under a key compares equal to a literal other than the
    default exactly when the store holds that text, or a byte array of its
    bytes, under the key. *)
Lemma eq_str_lookup (settings : store) (key lit default : string) :
  default <> lit ->
  Py.eq_str (value key (Py.VStr default) settings) lit = true
  <-> settings !! key = Some (Py.VStr lit) \/
      settings !! key = Some (Py.VBytes (list_ascii_of_string lit)).
Proof.
  intros Hne. unfold value. destruct (settings !! key) as [v|].
  - split.
    + intros H. destruct (eq_str_true _ _ H) as [-> | ->]; auto.
    + intros [[= ->] | [= ->]]; cbn [Py.eq_str];
        rewrite ?string_of_list_ascii_of_string; apply String.eqb_refl.
  - split; [| intros [H | H]; discriminate].
    cbn [Py.eq_str]. intros H. apply String.eqb_eq in H. contradiction.
Qed.

(** X3: when the constructor returns, the debug console exists exactly when
    the value stored under [show_debug] compares equal to [true], that is,
    when it is the text [true] or a byte array of these bytes; it then has
    one dock, shown, and a single line, the time-stamped [Application
    started].  The message of [_set_window_icon] is never in it: the icon is
    set before the console is made. *)
Theorem init_console_log (py : Py.interp) (e : Window.env) (t1 t2 : time)
    (settings : store) (fresh : app) (w : Window.state) :
  Window.init py e t1 t2 settings fresh = Py.Ok w ->
  (settings !! "show_debug" = Some (Py.VStr "true") \/
   settings !! "show_debug" = Some (Py.VBytes (list_ascii_of_string "true")) ->
   show_debug (Window.win w) = Py.VBool true /\
   Window.debug_console w
   = Some ["[" ++ timestamp t2 ++ "] Application started"] /\
   Window.docks w = [true]) /\
  (settings !! "show_debug" <> Some (Py.VStr "true") ->
   settings !! "show_debug" <> Some (Py.VBytes (list_ascii_of_string "true")) ->
   show_debug (Window.win w) = Py.VBool false /\
   Window.debug_console w = None /\
   Window.docks w = []).
Proof.
  intros Hinit.
  destruct (init_inv _ _ _ _ _ _ _ Hinit)
    as (self & name & text & n & Hload & _ & _ & _ & _ & Hwin & Hcons & Hdocks & _).
  destruct (load_settings_inv _ _ _ _ Hload) as (_ & _ & _ & _ & Hdebug & _).
  assert (Hshow : show_debug (Window.win w) = show_debug self).
  { rewrite Hwin. cbn [set_text_area apply_font setFont show_debug].
    apply apply_theme_frame. }
  rewrite Hshow, Hcons, Hdocks, Hdebug. cbn [Py.truthy].
  pose proof (eq_str_lookup settings "show_debug" "true" "false"
                ltac:(discriminate)) as Hiff.
  split.
  - intros Hkey. rewrite (proj2 Hiff Hkey). repeat split.
  - intros Hstr Hbytes.
    destruct (Py.eq_str _ "true") eqn:Heq; [| repeat split].
    exfalso. destruct (proj1 Hiff eq_refl); contradiction.
Qed.

(** X3, witness: a launch after debugging was switched on, the flag stored
    as a byte array. *)
Lemma init_console_log_witness :
  let settings : store :=
    {["show_debug" := Py.VBytes (list_ascii_of_string "true")]} in
  exists w,
    Window.init Py.strict posix_env noon noon settings blank = Py.Ok w /\
    (settings !! "show_debug" = Some (Py.VStr "true") \/
     settings !! "show_debug" = Some (Py.VBytes (list_ascii_of_string "true")) ->
     show_debug (Window.win w) = Py.VBool true /\
     Window.debug_console w = Some ["[12:00:00.000] Application started"] /\
     Window.docks w = [true]) /\
    (settings !! "show_debug" <> Some (Py.VStr "true") ->
     settings !! "show_debug" <> Some (Py.VBytes (list_ascii_of_string "true")) ->
     show_debug (Window.win w) = Py.VBool false /\
     Window.debug_console w = None /\
     Window.docks w = []).
Proof.
  cbv zeta.
  assert (Hinit :
    { w | Window.init Py.strict posix_env noon noon
            ({["show_debug" := Py.VBytes (list_ascii_of_string "true")]} : store)
            blank = Py.Ok w }).
  { eexists. vm_compute. reflexivity. }
  destruct Hinit as [w Hinit]. exists w. split; [exact Hinit |].
  exact (init_console_log Py.strict posix_env noon noon _ blank w Hinit).
Defined.

(** A constructor that returns leaves the window consistent. *)
Lemma init_establishes (py : Py.interp) (e : Window.env) (t1 t2 : time)
    (settings : store) (fresh : app) (w : Window.state) :
  Window.init py e t1 t2 settings fresh = Py.Ok w -> consistent w.
Proof.
  intros Hinit.
  destruct (init_inv _ _ _ _ _ _ _ Hinit)
    as (self & name & text & n & Hload & Hname & Hsize & Hfits & Htext
        & Hwin & Hcons & Hdocks & _).
  destruct (load_settings_inv _ _ _ _ Hload) as (_ & _ & _ & _ & Hdebug & _).
  destruct (apply_theme_frame None self) as (Hfn & Hfs & _ & Hsd & _).
  unfold consistent. cbv zeta. rewrite Hwin, Hcons, Hdocks.
  cbn [set_text_area apply_font setFont font_size font_name theme_mode
       styleSheet text_area_font show_debug].
  rewrite Hfn, Hfs, Hsd, Hsize, Hname, Hdebug. cbn [Py.truthy].
  split; [eauto |]. split; [eauto |].
  split; [apply apply_theme_sheet |]. split; [reflexivity |].
  exists (Py.eq_str (value "show_debug" (Py.VStr "false") settings) "true").
  split; [reflexivity |].
  destruct (Py.eq_str _ "true"); split; eauto; discriminate.
Qed.



(** ** [load_settings] on arbitrary stores *)

(** X5: [load_settings] returns exactly when [int] accepts what is stored
    under [font_size] (or nothing is stored) and each of the two window
    blobs is missing, falsy or a byte array; otherwise it raises.  No other
    key and nothing in the window decides it. *)
Theorem load_returns_iff (py : Py.interp) (settings : store) (a : app) :
  (exists a', load_settings py settings a = Py.Ok a')
  <->
  (exists n, Py.int py (value "font_size" (Py.VInt 16) settings) = Py.Ok n) /\
  blob_ok (value "window_geometry" Py.VNone settings) /\
  blob_ok (value "window_state" Py.VNone settings).
Proof.
  unfold load_settings, blob_ok.
  destruct (Py.int _ _) as [n|err]; cbn [mbind Py.result_bind].
  2: { split; [intros [a' [=]] | intros [[n [=]] _]]. }
  destruct (value "window_geometry" Py.VNone settings) as [|[|]|g|g|[|g0 g]],
           (value "window_state" Py.VNone settings) as [|[|]|s|s|[|s0 s]];
    cbn [Py.truthy restoreGeometry restoreState mbind Py.result_bind];
    repeat match goal with
           | |- context [negb (Z.eqb ?x 0)] => destruct (Z.eqb x 0)
           | |- context [negb (String.eqb ?x "")] => destruct (String.eqb x "")
           end;
    cbn [negb mbind Py.result_bind];
    (split;
     [ intros [a' Ha']; try discriminate Ha';
       (split; [eauto |]); split; ((left; reflexivity) || (right; eauto))
     | intros (_ & [Hg | [bg Hg]] & [Hs | [bs Hs]]);
       try discriminate; eauto ]).
Qed.

(** ** The settings dialog and the events of a session *)

Lemma eq_str_distinct (v : Py.value) (lit other : string) :
  lit <> other -> Py.eq_str v lit = true -> Py.eq_str v other = false.
Proof.
  intros Hne H. apply String.eqb_neq in Hne.
  destruct (eq_str_true _ _ H) as [-> | ->]; cbn [Py.eq_str];
    now rewrite ?string_of_list_ascii_of_string.
Qed.

(** The attributes after [save_settings]: those of the dialog, the theme
    resolved by [apply_theme], the font applied; the text is not touched. *)
Lemma save_settings_attrs (vw : view) (d : dialog) (self : app)
    (settings : store) :
  let self' := fst (save_settings vw d self settings) in
  font_name self' = Py.VStr (family d) /\
  font_size self' = Py.VInt (size_value d) /\
  show_debug self' = Py.VBool (isChecked d) /\
  text_area_font self' = Some (Py.VStr (family d), Py.VInt (size_value d)) /\
  (theme_mode self' = Py.VStr "Dark" /\ styleSheet self' = dark_css \/
   theme_mode self' = Py.VStr "Light" /\ styleSheet self' = light_css) /\
  text_content self' = text_content self /\
  text_area self' = text_area self /\
  saveGeometry self' = saveGeometry self /\
  saveState self' = saveState self.
Proof.
  cbv zeta. unfold save_settings. cbn [fst].
  match goal with |- context [apply_theme None ?x] => set (A := x) end.
  destruct (apply_theme_frame None A) as (Hn & Hs & Hc & Hd & Ha & Hg & Hw).
  cbn [apply_font setFont font_name font_size show_debug text_area_font
       theme_mode styleSheet text_content text_area saveGeometry saveState].
  rewrite Hn, Hs, Hc, Hd, Ha, Hg, Hw.
  assert (HA : font_name A = Py.VStr (family d) /\
               font_size A = Py.VInt (size_value d) /\
               show_debug A = Py.VBool (isChecked d) /\
               text_content A = text_content self /\
               text_area A = text_area self /\
               saveGeometry A = saveGeometry self /\
               saveState A = saveState self /\
               exists s, theme_mode A = Py.VStr s).
  { subst A. destruct (Z.eqb (checkedId d) 0), (Z.eqb (checkedId d) 1);
      repeat split; eauto. }
  destruct HA as (-> & -> & -> & -> & -> & -> & -> & s & Hs').
  repeat split.
  rewrite apply_theme_cases. cbv zeta. rewrite Hs'.
  destruct (Py.eq_str (Py.VStr s) "Dark") eqn:HD.
  - left. apply eq_str_VStr in HD. subst. split; [| reflexivity].
    now destruct A.
  - destruct (Py.eq_str (Py.VStr s) "Light") eqn:HL.
    + right. apply eq_str_VStr in HL. subst. split; [| reflexivity].
      now destruct A.
    + left. split; reflexivity.
Qed.

(** [save_settings] on the whole window raises exactly when the size of the
    dialog does not fit the C [int]; otherwise its attributes are those of
    [save_settings] on the attributes alone, and the console follows the
    change of the debug flag. *)
Lemma window_save_settings (vw : view) (now : time) (d : dialog)
    (w : Window.state) (settings : store) :
  if PyQt.fits_int (size_value d) then
    exists w',
      Window.save_settings vw now d w settings
      = Py.Ok (w', snd (save_settings vw d (Window.win w) settings)) /\
      Window.win w' = fst (save_settings vw d (Window.win w) settings) /\
      Window.window_icon w' = Window.window_icon w /\
      (Window.debug_console w', Window.docks w')
      = if PyQt.ne_bool (isChecked d) (show_debug (Window.win w)) then
          if isChecked d then
            (Some ["[" ++ timestamp now ++ "] Debug console enabled"],
             true :: Window.docks w)
          else
            (Window.debug_console w,
             match Window.docks w with
             | _ :: older => false :: older
             | [] => []
             end)
        else (Window.debug_console w, Window.docks w)
  else
    Window.save_settings vw now d w settings = Py.Raise Py.OverflowError.
Proof.
  pose proof (save_settings_attrs vw d (Window.win w) settings) as Hattrs.
  cbv zeta in Hattrs. destruct Hattrs as (Hn & Hs & Hd & _).
  unfold save_settings in *. cbn [fst snd] in *.
  unfold Window.save_settings. cbv zeta.
  match goal with |- context [apply_theme None ?x] => set (A := x) in * end.
  assert (Hnb : PyQt.ne_bool (isChecked d)
                  (show_debug (set_font_size (Py.VInt (size_value d))
                     (set_font_name (Py.VStr (family d))
                        (if Z.eqb (checkedId d) 0
                         then set_theme_mode (Py.VStr "System") (Window.win w)
                         else if Z.eqb (checkedId d) 1
                         then set_theme_mode (Py.VStr "Dark") (Window.win w)
                         else set_theme_mode (Py.VStr "Light") (Window.win w)))))
                = PyQt.ne_bool (isChecked d) (show_debug (Window.win w))).
  { now destruct (Z.eqb (checkedId d) 0), (Z.eqb (checkedId d) 1). }
  rewrite Hnb. clear Hnb.
  unfold Window.apply_font, Window.with_win.
  cbn [Window.win Window.debug_console Window.docks Window.window_icon].
  cbn [apply_font setFont font_name font_size show_debug] in Hn, Hs, Hd.
  rewrite Hn, Hs. cbn [PyQt.str_arg PyQt.int_arg mbind Py.result_bind].
  destruct (PyQt.fits_int (size_value d)); cbn [mbind Py.result_bind];
    [| reflexivity].
  cbn [Window.win Window.debug_console Window.docks Window.window_icon].
  unfold Window.log_debug, Window._init_debug_console.
  cbn [Window.win Window.debug_console Window.docks Window.window_icon
       apply_font setFont show_debug].
  rewrite Hd. cbn [Py.truthy PyQt.bool_arg].
  destruct (PyQt.ne_bool (isChecked d) (show_debug (Window.win w))).
  - destruct (isChecked d); cbn [negb].
    + eexists. split; [reflexivity |]. repeat split.
    + destruct (Window.docks w) as [|newest older];
        (eexists; split; [reflexivity |]); repeat split;
        now destruct w.
  - eexists. split; [reflexivity |]. repeat split.
Qed.

Lemma consistent_ext (w w' : Window.state) :
  font_name (Window.win w') = font_name (Window.win w) ->
  font_size (Window.win w') = font_size (Window.win w) ->
  theme_mode (Window.win w') = theme_mode (Window.win w) ->
  styleSheet (Window.win w') = styleSheet (Window.win w) ->
  text_area_font (Window.win w') = text_area_font (Window.win w) ->
  show_debug (Window.win w') = show_debug (Window.win w) ->
  Window.debug_console w' = Window.debug_console w ->
  Window.docks w' = Window.docks w ->
  consistent w -> consistent w'.
Proof.
  unfold consistent. cbv zeta.
  intros -> -> -> -> -> -> -> ->. exact (fun H => H).
Qed.

(** A dialog save that returns keeps the window consistent, and it returns
    when the size of the dialog fits the C [int]. *)
Lemma save_settings_consistent (vw : view) (now : time) (d : dialog)
    (w : Window.state) (settings : store) :
  consistent w ->
  (PyQt.fits_int (size_value d) = true ->
   exists w' settings',
     Window.save_settings vw now d w settings = Py.Ok (w', settings')) /\
  (forall w' settings',
     Window.save_settings vw now d w settings = Py.Ok (w', settings') ->
     consistent w').
Proof.
  intros (_ & _ & _ & _ & old & Hold & Hcons & Hdocks).
  pose proof (window_save_settings vw now d w settings) as Hsave.
  destruct (PyQt.fits_int (size_value d)) eqn:Hfits.
  2: { split; [discriminate |]. intros w' s'. rewrite Hsave. discriminate. }
  destruct Hsave as (w1 & Hrun & Hwin & _ & Hdebug).
  split; [intros _; eauto |].
  intros w' s'. rewrite Hrun. intros [= <- _].
  pose proof (save_settings_attrs vw d (Window.win w) settings) as Hattrs.
  cbv zeta in Hattrs. rewrite <- Hwin in Hattrs.
  destruct Hattrs as (Hn & Hs & Hd & Hf & Htheme & _).
  unfold consistent. cbv zeta. rewrite Hn, Hs, Hd, Hf.
  split; [eauto |]. split; [cbn; eauto |].
  split; [destruct Htheme as [[-> ->] | [-> ->]]; [left | right];
          split; reflexivity |].
  split; [reflexivity |].
  exists (isChecked d). split; [reflexivity |].
  rewrite Hold in Hdebug. cbn [PyQt.ne_bool] in Hdebug.
  destruct (isChecked d), old; cbn [Bool.eqb negb] in Hdebug;
    injection Hdebug as -> ->.
  - split; [exact Hcons | exact Hdocks].
  - split; [eauto |]. split; [reflexivity |].
    destruct (Window.docks w) as [|newest older];
      [constructor | destruct Hdocks as [-> Holder]; now constructor].
  - split; [discriminate |].
    destruct (Window.docks w) as [|newest older];
      [reflexivity | destruct Hdocks as [_ Holder]; now split].
  - split; [exact Hcons | exact Hdocks].
Qed.

Lemma handle_consistent (vw : view) (ev : Window.event)
    (w : Window.state) (settings : store) :
  consistent w ->
  (Window.from_widgets ev = true ->
   exists w' settings',
     Window.handle vw ev (w, settings) = Py.Ok (w', settings')) /\
  (forall w' settings',
     Window.handle vw ev (w, settings) = Py.Ok (w', settings') ->
     consistent w').
Proof.
  intros Hw. destruct ev as [text|g s|d now];
    cbn [Window.handle Window.from_widgets fst snd].
  - split; [eauto |]. intros w' s' [= <- _]. now apply (consistent_ext w).
  - split; [eauto |]. intros w' s' [= <- _]. now apply (consistent_ext w).
  - now apply save_settings_consistent.
Qed.

Lemma run_preserves (vw : view) (events : list Window.event) :
  forall (w w' : Window.state) (settings settings' : store),
    consistent w ->
    Window.run vw events (w, settings) = Py.Ok (w', settings') ->
    consistent w'.
Proof.
  induction events as [|ev rest IH]; intros w w' settings settings' Hw.
  - cbn [Window.run]. now intros [= <- _].
  - cbn [Window.run].
    destruct (Window.handle vw ev (w, settings)) as [[w1 s1]|] eqn:Hev;
      cbn [mbind Py.result_bind]; [| discriminate].
    apply IH. now apply (proj2 (handle_consistent vw ev w settings Hw) w1 s1).
Qed.

Lemma run_returns (vw : view) (events : list Window.event) :
  forall (w : Window.state) (settings : store),
    consistent w ->
    Forall (fun ev => Window.from_widgets ev = true) events ->
    exists w' settings',
      Window.run vw events (w, settings) = Py.Ok (w', settings').
Proof.
  induction events as [|ev rest IH]; intros w settings Hw Hevents.
  - eauto.
  - inversion Hevents as [|? ? Hev Hrest]; subst. cbn [Window.run].
    destruct (handle_consistent vw ev w settings Hw) as [Hok Hkeep].
    destruct (Hok Hev) as (w1 & s1 & Hrun). rewrite Hrun.
    cbn [mbind Py.result_bind]. apply IH; [| exact Hrest].
    now apply (Hkeep w1 s1).
Qed.

(** X6: once the constructor has returned, nothing in the session raises:
    whatever the user types, however the window is moved and whatever the
    settings dialog is saved with (its size box holding a C [int], as the
    widget does), every handler and the close event return, and the window
    stays consistent to the end. *)
Theorem session_never_raises (py : Py.interp) (vw : view) (e : Window.env)
    (t1 t2 : time) (settings : store) (fresh : app)
    (events : list Window.event) (w : Window.state) :
  Window.init py e t1 t2 settings fresh = Py.Ok w ->
  Forall (fun ev => Window.from_widgets ev = true) events ->
  exists w' settings',
    session py vw e t1 t2 settings fresh events = Py.Ok (w', settings') /\
    consistent w'.
Proof.
  intros Hinit Hevents. unfold session. rewrite Hinit.
  cbn [mbind Py.result_bind].
  pose proof (init_establishes _ _ _ _ _ _ _ Hinit) as Hw.
  destruct (run_returns vw events w settings Hw Hevents) as (w1 & s1 & Hrun).
  rewrite Hrun. cbn [mbind Py.result_bind fst snd].
  eexists _, _. split; [reflexivity |].
  cbn [Window.closeEvent fst].
  apply (consistent_ext w1); try reflexivity.
  exact (run_preserves vw events w w1 settings s1 Hw Hrun).
Qed.

(** X6, witness: over a store whose theme is a byte array, the user types,
    saves the dialog with the System theme, size 72 and the debug console
    on, then types again. *)
Lemma session_never_raises_witness :
  let settings : store :=
    {["theme_mode" := Py.VBytes (list_ascii_of_string "Dark")]} in
  let events :=
    [Window.Typed "a";
     Window.SettingsSaved (Dialog 0 "Courier" 72 true) noon;
     Window.Typed "ab"] in
  exists w w' settings',
    Window.init Py.strict posix_env noon noon settings blank = Py.Ok w /\
    Forall (fun ev => Window.from_widgets ev = true) events /\
    session Py.strict IniFile posix_env noon noon settings blank events
    = Py.Ok (w', settings') /\
    consistent w'.
Proof.
  cbv zeta.
  assert (Hinit :
    { w | Window.init Py.strict posix_env noon noon
            ({["theme_mode" := Py.VBytes (list_ascii_of_string "Dark")]} : store)
            blank = Py.Ok w }).
  { eexists. vm_compute. reflexivity. }
  destruct Hinit as [w Hinit].
  assert (Hev : Forall (fun ev => Window.from_widgets ev = true)
                  [Window.Typed "a";
                   Window.SettingsSaved (Dialog 0 "Courier" 72 true) noon;
                   Window.Typed "ab"]).
  { repeat constructor. }
  destruct (session_never_raises Py.strict IniFile posix_env noon noon _ blank
              _ w Hinit Hev) as (w' & settings' & Hs & Hc).
  exists w, w', settings'.
  split; [exact Hinit |]. split; [exact Hev |]. split; [exact Hs | exact Hc].
Defined.

Lemma session_inv (py : Py.interp) (vw : view) (e : Window.env)
    (t1 t2 : time) (settings : store) (fresh : app)
    (events : list Window.event) (w' : Window.state) (settings' : store) :
  session py vw e t1 t2 settings fresh events = Py.Ok (w', settings') ->
  exists (w1 : Window.state) (s1 : store),
    consistent w1 /\
    w' = Window.with_win
           (set_text_content (Py.VStr (text_area (Window.win w1)))
              (Window.win w1)) w1 /\
    settings' = save_settings_to_file vw (Window.win w') s1.
Proof.
  unfold session.
  destruct (Window.init py e t1 t2 settings fresh) as [w|] eqn:Hinit;
    cbn [mbind Py.result_bind]; [| discriminate].
  pose proof (init_establishes _ _ _ _ _ _ _ Hinit) as Hw.
  destruct (Window.run vw events (w, settings)) as [[w1 s1]|] eqn:Hrun;
    cbn [mbind Py.result_bind]; [| discriminate].
  pose proof (run_preserves vw events w w1 settings s1 Hw Hrun) as Hw1.
  cbn [mbind Py.result_bind fst snd Window.closeEvent closeEvent].
  intros [= <- <-]. exists w1, s1.
  split; [exact Hw1 | split; reflexivity].
Qed.

(** The preferences of a window as it closes after a session, and what the
    store then holds for them. *)
Lemma session_closed (py : Py.interp) (vw : view) (e : Window.env)
    (t1 t2 : time) (settings : store) (fresh : app)
    (events : list Window.event) (w' : Window.state) (settings' : store) :
  session py vw e t1 t2 settings fresh events = Py.Ok (w', settings') ->
  exists (n : Z) (debug : bool) (s1 : store),
    font_size (Window.win w') = Py.VInt n /\
    PyQt.fits_int n = true /\
    (font_name (Window.win w') = Py.VNone \/
     exists name, font_name (Window.win w') = Py.VStr name) /\
    (Py.eq_str (theme_mode (Window.win w')) "Dark" = true /\
     styleSheet (Window.win w') = dark_css \/
     Py.eq_str (theme_mode (Window.win w')) "Light" = true /\
     styleSheet (Window.win w') = light_css) /\
    show_debug (Window.win w') = Py.VBool debug /\
    text_content (Window.win w') = Py.VStr (text_area (Window.win w')) /\
    settings' = save_settings_to_file vw (Window.win w') s1.
Proof.
  intros Hs. destruct (session_inv _ _ _ _ _ _ _ _ _ _ Hs)
    as (w1 & s1 & Hw1 & -> & ->).
  destruct Hw1 as ((n & Hn & Hfits) & (name & Hname) & Htheme & _ &
                   debug & Hd & _).
  exists n, debug, s1.
  cbn [Window.with_win Window.win set_text_content font_size font_name
       theme_mode styleSheet show_debug text_content text_area].
  split; [exact Hn |]. split; [exact Hfits |].
  split; [destruct (font_name (Window.win w1)); try discriminate; eauto |].
  split; [exact Htheme |]. split; [exact Hd |]. split; reflexivity.
Qed.

(** X7: the store a later run reads after a session never holds the System
    theme under [theme_mode]: it holds the theme of the closing window, a
    text or a byte array that reads [Dark] or [Light]; [show_debug] is the
    text [true] or [false], [font_size] is what [int] reads back as the size
    of the closing window, and [text_content] is the text of the text area
    at the close. *)
Theorem session_store_values (py py' : Py.interp) (fmt : format)
    (e : Window.env) (t1 t2 : time)
    (settings : store) (fresh : app) (events : list Window.event)
    (w' : Window.state) (settings' : store) :
  session py fmt e t1 t2 settings fresh events = Py.Ok (w', settings') ->
  settings' !! "theme_mode" = Some (theme_mode (Window.win w')) /\
  (theme_mode (Window.win w') = Py.VStr "Dark" \/
   theme_mode (Window.win w') = Py.VStr "Light" \/
   theme_mode (Window.win w') = Py.VBytes (list_ascii_of_string "Dark") \/
   theme_mode (Window.win w') = Py.VBytes (list_ascii_of_string "Light")) /\
  Py.eq_str (theme_mode (Window.win w')) "System" = false /\
  (settings' !! "show_debug" = Some (Py.VStr "true") /\
   show_debug (Window.win w') = Py.VBool true \/
   settings' !! "show_debug" = Some (Py.VStr "false") /\
   show_debug (Window.win w') = Py.VBool false) /\
  (exists n, font_size (Window.win w') = Py.VInt n /\
             PyQt.fits_int n = true /\
             Py.int py' (value "font_size" (Py.VInt 16) settings') = Py.Ok n) /\
  settings' !! "text_content" = Some (Py.VStr (text_area (Window.win w'))).
Proof.
  intros Hs. destruct (session_closed _ _ _ _ _ _ _ _ _ _ Hs)
    as (n & debug & s1 & Hn & Hfits & _ & Htheme & Hd & _ & ->).
  destruct (saved_keys fmt (Window.win w') s1)
    as (_ & Hks & Hkt & Hkc & _ & _ & Hkd).
  cbv zeta in *. unfold value. rewrite Hks, Hkt, Hkc, Hkd, Hn, Hd.
  assert (H4 : theme_mode (Window.win w') = Py.VStr "Dark" \/
               theme_mode (Window.win w') = Py.VStr "Light" \/
               theme_mode (Window.win w')
               = Py.VBytes (list_ascii_of_string "Dark") \/
               theme_mode (Window.win w')
               = Py.VBytes (list_ascii_of_string "Light")).
  { destruct Htheme as [[H _] | [H _]];
      destruct (eq_str_true _ _ H) as [-> | ->]; auto. }
  split; [destruct H4 as [-> | [-> | [-> | ->]]]; reflexivity |].
  split; [exact H4 |].
  split; [destruct H4 as [-> | [-> | [-> | ->]]]; reflexivity |].
  split; [destruct debug; [left | right]; split; reflexivity |].
  split; [| reflexivity].
  exists n. split; [reflexivity |]. split; [exact Hfits |].
  apply (int_read_back py' fmt).
Qed.

(** X7, witness: the store held a byte array as the theme and the user only
    typed. *)
Lemma session_store_values_witness :
  let settings : store :=
    {["theme_mode" := Py.VBytes (list_ascii_of_string "Light")]} in
  exists w' settings',
    session Py.strict IniFile posix_env noon noon settings blank
      [Window.Typed "hello"]
    = Py.Ok (w', settings') /\
    settings' !! "theme_mode"
    = Some (Py.VBytes (list_ascii_of_string "Light")) /\
    (settings' !! "show_debug" = Some (Py.VStr "true") /\
     show_debug (Window.win w') = Py.VBool true \/
     settings' !! "show_debug" = Some (Py.VStr "false") /\
     show_debug (Window.win w') = Py.VBool false) /\
    settings' !! "text_content" = Some (Py.VStr (text_area (Window.win w'))).
Proof.
  cbv zeta.
  assert (Hs :
    { r | session Py.strict IniFile posix_env noon noon
            ({["theme_mode" := Py.VBytes (list_ascii_of_string "Light")]}
               : store) blank
            [Window.Typed "hello"]
          = Py.Ok r }).
  { eexists. vm_compute. reflexivity. }
  destruct Hs as [[w' settings'] Hs].
  exists w', settings'. split; [exact Hs |].
  destruct (session_store_values Py.strict Py.strict IniFile posix_env noon
              noon _ blank _ w' settings' Hs)
    as (Ht & _ & _ & Hd & _ & Hc).
  split; [| split; [exact Hd | exact Hc]].
  rewrite Ht. f_equal.
  apply (f_equal (fun r => match r with
                           | Py.Ok (w, _) => theme_mode (Window.win w)
                           | Py.Raise _ => Py.VNone
                           end)) in Hs.
  vm_compute in Hs. symmetry. exact Hs.
Defined.

(** X8: the store a session leaves can always be opened again: the next
    constructor returns, on any platform and over any fresh window, with the
    font, size, theme, style sheet and debug flag the window had when it
    closed, and with the closing text in [text_content] and, as the widget
    renders it, in the text area. *)
Theorem session_store_reopens (py py2 : Py.interp) (fmt : format)
    (e : Window.env) (t1 t2 : time)
    (settings : store) (fresh : app) (events : list Window.event)
    (w' : Window.state) (settings' : store)
    (e2 : Window.env) (t3 t4 : time) (fresh2 : app) :
  session py fmt e t1 t2 settings fresh events = Py.Ok (w', settings') ->
  exists w2,
    Window.init py2 e2 t3 t4 settings' fresh2 = Py.Ok w2 /\
    font_name (Window.win w2) = font_name (Window.win w') /\
    font_size (Window.win w2) = font_size (Window.win w') /\
    theme_mode (Window.win w2) = theme_mode (Window.win w') /\
    styleSheet (Window.win w2) = styleSheet (Window.win w') /\
    show_debug (Window.win w2) = show_debug (Window.win w') /\
    text_content (Window.win w2) = text_content (Window.win w') /\
    text_area (Window.win w2)
    = Window.plain_text e2 (text_area (Window.win w')).
Proof.
  intros Hs. destruct (session_closed _ _ _ _ _ _ _ _ _ _ Hs)
    as (n & debug & s1 & Hn & Hfits & Hname & Htheme & Hd & Hc & ->).
  destruct (load_after_save py2 fmt (Window.win w') s1 (defaults fresh2) n Hn)
    as (self & Hload & Hn' & Hs' & Ht' & Hc' & Hd').
  assert (Hfont : font_name self = font_name (Window.win w')).
  { rewrite Hn'. destruct Hname as [-> | [name ->]]; reflexivity. }
  assert (Hthm : theme_mode self = theme_mode (Window.win w')).
  { rewrite Ht'. destruct Htheme as [[H _] | [H _]];
      destruct (eq_str_true _ _ H) as [-> | ->]; reflexivity. }
  assert (Hdbg : show_debug self = show_debug (Window.win w')).
  { rewrite Hd', Hd. now destruct debug. }
  rewrite (init_eq py2 e2 t3 t4 _ fresh2 self Hload).
  assert (Hstr : exists name, PyQt.str_arg (font_name self) = Py.Ok name).
  { rewrite Hfont. destruct Hname as [-> | [name ->]]; cbn; eauto. }
  destruct Hstr as [name ->]. rewrite Hc', Hs'.
  cbn [PyQt.str_arg PyQt.int_arg mbind Py.result_bind]. rewrite Hfits.
  cbn [mbind Py.result_bind].
  eexists. split; [reflexivity |].
  cbn [Window.win set_text_area apply_font setFont font_name font_size
       theme_mode styleSheet show_debug text_content text_area].
  destruct (apply_theme_frame None self) as (-> & -> & -> & -> & _).
  rewrite Hfont, Hs', Hn, Hdbg, Hc', Hc.
  assert (Happly : theme_mode (apply_theme None self)
                   = theme_mode (Window.win w') /\
                   styleSheet (apply_theme None self)
                   = styleSheet (Window.win w')).
  { rewrite apply_theme_cases. cbv zeta. rewrite Hthm.
    destruct Htheme as [[H ->] | [H ->]].
    - rewrite H. now destruct self.
    - rewrite (eq_str_distinct _ "Light" "Dark") by (discriminate || exact H).
      rewrite H. now destruct self. }
  destruct Happly as [-> ->].
  repeat split.
Qed.

(** X8, witness: a session on one platform, reopened through the
    registry-like store on the same platform. *)
Lemma session_store_reopens_witness :
  exists w' settings' w2,
    session Py.strict Registry posix_env noon noon ∅ blank
      [Window.Typed "hello";
       Window.SettingsSaved (Dialog 2 "Courier" 8 false) noon]
    = Py.Ok (w', settings') /\
    Window.init Py.strict posix_env noon noon settings' blank = Py.Ok w2 /\
    font_name (Window.win w2) = font_name (Window.win w') /\
    font_size (Window.win w2) = font_size (Window.win w') /\
    theme_mode (Window.win w2) = theme_mode (Window.win w') /\
    styleSheet (Window.win w2) = styleSheet (Window.win w') /\
    show_debug (Window.win w2) = show_debug (Window.win w') /\
    text_content (Window.win w2) = text_content (Window.win w') /\
    text_area (Window.win w2)
    = Window.plain_text posix_env (text_area (Window.win w')).
Proof.
  assert (Hs :
    { r | session Py.strict Registry posix_env noon noon ∅ blank
            [Window.Typed "hello";
             Window.SettingsSaved (Dialog 2 "Courier" 8 false) noon]
          = Py.Ok r }).
  { eexists. vm_compute. reflexivity. }
  destruct Hs as [[w' settings'] Hs].
  exists w', settings'.
  destruct (session_store_reopens Py.strict Py.strict Registry posix_env noon
              noon ∅ blank _ w' settings' posix_env noon noon blank Hs)
    as [w2 H].
  exists w2. split; assumption.
Defined.

(** ** The settings dialog *)

Lemma fits_int_clamped (n : Z) : PyQt.fits_int (Z.max 8 (Z.min n 72)) = true.
Proof.
  unfold PyQt.fits_int. apply andb_true_iff.
  change (2 ^ 31) with 2147483648.
  split; [apply Z.leb_le | apply Z.ltb_lt]; lia.
Qed.

Lemma editing_consistent (size : Z) (content area : string) :
  PyQt.fits_int size = true ->
  consistent (Window.State (editing size false content area) None [] None).
Proof.
  intros Hfits. unfold consistent. cbn -[dark_css light_css PyQt.fits_int].
  split; [eauto |]. split; [eauto |]. split; [left; split; reflexivity |].
  split; [reflexivity |]. exists false. repeat split. discriminate.
Qed.

(** X9: in a consistent window the settings dialog always opens.  The size
    box shows the current size moved into the range 8 to 72; the checked
    theme button is Dark or Light, the one the current theme compares equal
    to, never System; the check box shows the debug flag. *)
Theorem open_settings_shows (e : Window.env) (w : Window.state) :
  consistent w ->
  exists (d : dialog) (n : Z),
    Window.open_settings e w = Py.Ok d /\
    font_size (Window.win w) = Py.VInt n /\
    size_value d = Z.max 8 (Z.min n 72) /\
    8 <= size_value d <= 72 /\
    (8 <= n <= 72 -> size_value d = n) /\
    (checkedId d = 1 /\ Py.eq_str (theme_mode (Window.win w)) "Dark" = true \/
     checkedId d = 2 /\ Py.eq_str (theme_mode (Window.win w)) "Light" = true) /\
    show_debug (Window.win w) = Py.VBool (isChecked d).
Proof.
  intros ((n & Hn & Hfits) & _ & Htheme & _ & debug & Hd & _).
  unfold Window.open_settings. rewrite Hn, Hd.
  cbn [PyQt.int_arg PyQt.bool_arg mbind Py.result_bind]. rewrite Hfits.
  cbn [mbind Py.result_bind].
  eexists _, n. split; [reflexivity |].
  cbn [size_value checkedId isChecked].
  split; [reflexivity |]. split; [reflexivity |]. split; [lia |].
  split; [lia |]. split; [| reflexivity].
  destruct Htheme as [[H _] | [H _]].
  - left. rewrite (eq_str_distinct _ "Dark" "System") by (discriminate || exact H).
    rewrite H. now split.
  - right.
    rewrite (eq_str_distinct _ "Light" "System") by (discriminate || exact H).
    rewrite (eq_str_distinct _ "Light" "Dark") by (discriminate || exact H).
    now split.
Qed.

(** X9, witness: a size of 200 loaded from the store shows as 72. *)
Lemma open_settings_shows_witness :
  consistent (Window.State (editing 200 false "" "") None [] None) /\
  exists (d : dialog) (n : Z),
    Window.open_settings posix_env
      (Window.State (editing 200 false "" "") None [] None) = Py.Ok d /\
    Py.VInt 200 = Py.VInt n /\
    size_value d = Z.max 8 (Z.min n 72) /\
    8 <= size_value d <= 72 /\
    (8 <= n <= 72 -> size_value d = n) /\
    (checkedId d = 1 /\ Py.eq_str (Py.VStr "Dark") "Dark" = true \/
     checkedId d = 2 /\ Py.eq_str (Py.VStr "Dark") "Light" = true) /\
    Py.VBool false = Py.VBool (isChecked d).
Proof.
  assert (H : consistent (Window.State (editing 200 false "" "") None [] None)).
  { apply editing_consistent. reflexivity. }
  split; [exact H |].
  exact (open_settings_shows posix_env
           (Window.State (editing 200 false "" "") None [] None) H).
Defined.

Lemma apply_theme_fixed (self : app) :
  Py.eq_str (theme_mode self) "Dark" = true /\ styleSheet self = dark_css \/
  Py.eq_str (theme_mode self) "Light" = true /\ styleSheet self = light_css ->
  apply_theme None self = self.
Proof.
  intros H. rewrite apply_theme_cases. cbv zeta.
  destruct H as [[H Hs] | [H Hs]].
  - rewrite H. destruct self. cbn in *. now subst.
  - rewrite (eq_str_distinct _ "Light" "Dark") by (discriminate || exact H).
    rewrite H. destruct self. cbn in *. now subst.
Qed.

(** X10: pressing Save in a dialog that was opened and not edited sets the
    size to the current size moved into 8 to 72, so a size outside the range
    that came from the store is replaced; when the size is in the range and
    the font box shows the current font name, the save changes nothing in
    the window.  The theme is a text here, as it is after any dialog save
    and after a load from a store written by the editor. *)
Theorem unedited_dialog_save (fmt : format) (e : Window.env) (now : time)
    (w : Window.state) (settings : store) (d : dialog) (n : Z)
    (theme : string) :
  consistent w ->
  theme_mode (Window.win w) = Py.VStr theme ->
  font_size (Window.win w) = Py.VInt n ->
  Window.open_settings e w = Py.Ok d ->
  exists w',
    Window.save_settings fmt now d w settings
    = Py.Ok (w', save_settings_to_file fmt (Window.win w') settings) /\
    font_size (Window.win w') = Py.VInt (Z.max 8 (Z.min n 72)) /\
    theme_mode (Window.win w') = theme_mode (Window.win w) /\
    show_debug (Window.win w') = show_debug (Window.win w) /\
    Window.debug_console w' = Window.debug_console w /\
    Window.docks w' = Window.docks w /\
    (8 <= n <= 72 ->
     font_name (Window.win w) = Py.VStr (family d) ->
     w' = w).
Proof.
  intros Hw Htext Hn Hopen.
  destruct Hw as ((n' & Hn' & Hfits) & _ & Htheme & Hfont & debug & Hd & _).
  assert (n' = n) by congruence. subst n'.
  assert (Hstr : theme_mode (Window.win w) = Py.VStr "Dark" /\
                 styleSheet (Window.win w) = dark_css \/
                 theme_mode (Window.win w) = Py.VStr "Light" /\
                 styleSheet (Window.win w) = light_css).
  { rewrite Htext in *.
    destruct Htheme as [[H Hs] | [H Hs]]; apply eq_str_VStr in H; subst;
      [left | right]; now split. }
  unfold Window.open_settings in Hopen. rewrite Hn, Hd in Hopen.
  cbn [PyQt.int_arg PyQt.bool_arg mbind Py.result_bind] in Hopen.
  rewrite Hfits in Hopen. cbn [mbind Py.result_bind] in Hopen.
  injection Hopen as <-.
  set (d := Dialog _ _ _ _).
  pose proof (window_save_settings fmt now d w settings) as Hsave.
  assert (Hfit : PyQt.fits_int (size_value d) = true)
    by apply fits_int_clamped.
  rewrite Hfit in Hsave. destruct Hsave as (w' & Hrun & Hwin & Hicon & Hdebug).
  pose proof (save_settings_attrs fmt d (Window.win w) settings) as Hattrs.
  cbv zeta in Hattrs. rewrite <- Hwin in Hattrs.
  destruct Hattrs as (Hfn' & Hfs' & Hsd' & _).
  rewrite Hd in Hdebug. cbn [isChecked d PyQt.ne_bool] in Hdebug.
  rewrite Bool.eqb_reflx in Hdebug. cbn [negb] in Hdebug.
  injection Hdebug as Hcons Hdocks.
  assert (Hsaved : snd (save_settings fmt d (Window.win w) settings)
                   = save_settings_to_file fmt (Window.win w') settings).
  { rewrite Hwin. reflexivity. }
  assert (Hfix : forall a,
            theme_mode a = theme_mode (Window.win w) ->
            styleSheet a = styleSheet (Window.win w) ->
            apply_theme None a = a).
  { intros a Ht Hs. apply apply_theme_fixed. rewrite Ht, Hs. exact Htheme. }
  assert (Hwin' : Window.win w'
                  = apply_font (apply_theme None
                      (set_show_debug (Py.VBool debug)
                         (set_font_size (Py.VInt (Z.max 8 (Z.min n 72)))
                            (set_font_name
                               (Py.VStr (Window.shown_family e
                                           (font_name (Window.win w))))
                               (Window.win w)))))).
  { clear Htext Htheme Hfix.
    rewrite Hwin. unfold save_settings. cbn [fst checkedId d family
      size_value isChecked].
    destruct Hstr as [[Ht Hs] | [Ht Hs]]; rewrite Ht;
      cbn [Py.eq_str String.eqb Ascii.eqb Bool.eqb Z.eqb]; cbn;
      do 4 f_equal; destruct (Window.win w); cbn in *; now subst. }
  exists w'. rewrite <- Hsaved.
  split; [exact Hrun |].
  split; [rewrite Hfs'; reflexivity |].
  split.
  { rewrite Hwin'. cbn [apply_font setFont theme_mode].
    rewrite Hfix; [| now destruct (Window.win w) ..].
    now destruct (Window.win w). }
  split; [now rewrite Hsd', Hd |].
  split; [exact Hcons |]. split; [exact Hdocks |].
  intros Hrange Hfamily.
  destruct w as [a c dk ic], w' as [a' c' dk' ic'].
  cbn [Window.win Window.debug_console Window.docks Window.window_icon] in *.
  subst c' dk' ic'. f_equal. rewrite Hwin'.
  replace (Z.max 8 (Z.min n 72)) with n by lia.
  rewrite Hfix; [| now destruct a ..].
  destruct a as [fn fs tm tc sd css ta taf g ds sg ss].
  cbn [font_name font_size theme_mode styleSheet show_debug text_area_font]
    in Hn, Hd, Hfont, Hfamily.
  subst d. cbn [family] in Hfamily.
  rewrite <- Hfamily, <- Hn, <- Hd.
  cbn [set_show_debug set_font_size set_font_name font_name font_size
       theme_mode text_content show_debug styleSheet text_area
       text_area_font geometry dock_state saveGeometry saveState
       apply_font setFont].
  now rewrite Hfont.
Qed.

(** X10, witness: a size of 200 came from the store; the dialog is opened
    and saved as it is. *)
Lemma unedited_dialog_save_witness :
  let w := Window.State (editing 200 false "" "") None [] None in
  let d := Dialog 1 "Arial" 72 false in
  consistent w /\
  theme_mode (Window.win w) = Py.VStr "Dark" /\
  font_size (Window.win w) = Py.VInt 200 /\
  Window.open_settings posix_env w = Py.Ok d /\
  exists w',
    Window.save_settings IniFile noon d w ∅
    = Py.Ok (w', save_settings_to_file IniFile (Window.win w') ∅) /\
    font_size (Window.win w') = Py.VInt (Z.max 8 (Z.min 200 72)) /\
    theme_mode (Window.win w') = theme_mode (Window.win w) /\
    show_debug (Window.win w') = show_debug (Window.win w) /\
    Window.debug_console w' = Window.debug_console w /\
    Window.docks w' = Window.docks w /\
    (8 <= 200 <= 72 ->
     font_name (Window.win w) = Py.VStr (family d) ->
     w' = w).
Proof.
  cbv zeta.
  split; [now apply editing_consistent |].
  split; [reflexivity |]. split; [reflexivity |]. split; [reflexivity |].
  apply (unedited_dialog_save IniFile posix_env noon
           (Window.State (editing 200 false "" "") None [] None) ∅
           (Dialog 1 "Arial" 72 false) 200 "Dark");
    [now apply editing_consistent | reflexivity | reflexivity | reflexivity].
Defined.

(** A dialog save that returns was given a size that fits the C [int]. *)
Lemma window_save_returns (vw : view) (now : time) (d : dialog)
    (w w' : Window.state) (settings settings' : store) :
  Window.save_settings vw now d w settings = Py.Ok (w', settings') ->
  settings' = snd (save_settings vw d (Window.win w) settings) /\
  Window.win w' = fst (save_settings vw d (Window.win w) settings) /\
  (Window.debug_console w', Window.docks w')
  = if PyQt.ne_bool (isChecked d) (show_debug (Window.win w)) then
      if isChecked d then
        (Some ["[" ++ timestamp now ++ "] Debug console enabled"],
         true :: Window.docks w)
      else
        (Window.debug_console w,
         match Window.docks w with
         | _ :: older => false :: older
         | [] => []
         end)
    else (Window.debug_console w, Window.docks w).
Proof.
  intros Hrun.
  pose proof (window_save_settings vw now d w settings) as Hsave.
  destruct (PyQt.fits_int (size_value d)); [| congruence].
  destruct Hsave as (w1 & Hrun1 & Hwin & _ & Hdebug).
  rewrite Hrun1 in Hrun. injection Hrun as -> <-.
  split; [reflexivity |]. split; [exact Hwin | exact Hdebug].
Qed.

(** X11: what a dialog save does to the debug console.  Switching the flag
    on makes a new console whose only line is the time-stamped [Debug
    console enabled], in a new shown dock: lines logged before are gone.
    Switching it off hides the dock and keeps the lines, and from then on
    [log_debug] writes nothing.  Saving with the flag as it was leaves
    console and docks alone. *)
Theorem debug_toggle (fmt : format) (now : time) (d : dialog)
    (w w' : Window.state) (settings settings' : store) (old : bool) :
  show_debug (Window.win w) = Py.VBool old ->
  Window.save_settings fmt now d w settings = Py.Ok (w', settings') ->
  (old = false -> isChecked d = true ->
   Window.debug_console w'
   = Some ["[" ++ timestamp now ++ "] Debug console enabled"] /\
   Window.docks w' = true :: Window.docks w) /\
  (old = true -> isChecked d = false ->
   Window.debug_console w' = Window.debug_console w /\
   Window.docks w' = match Window.docks w with
                     | _ :: older => false :: older
                     | [] => []
                     end /\
   forall t message, Window.log_debug t message w' = w') /\
  (old = isChecked d ->
   Window.debug_console w' = Window.debug_console w /\
   Window.docks w' = Window.docks w).
Proof.
  intros Hold Hrun.
  destruct (window_save_returns _ _ _ _ _ _ _ Hrun) as (_ & Hwin & Hdebug).
  pose proof (save_settings_attrs fmt d (Window.win w) settings) as Hattrs.
  cbv zeta in Hattrs. rewrite <- Hwin in Hattrs.
  destruct Hattrs as (_ & _ & Hsd & _).
  rewrite Hold in Hdebug. cbn [PyQt.ne_bool] in Hdebug.
  split; [| split].
  - intros -> Hnew. rewrite Hnew in Hdebug. cbn in Hdebug.
    now injection Hdebug as -> ->.
  - intros -> Hnew. rewrite Hnew in Hdebug. cbn in Hdebug.
    injection Hdebug as -> ->. repeat split.
    intros t message. unfold Window.log_debug. now rewrite Hsd, Hnew.
  - intros ->. rewrite Bool.eqb_reflx in Hdebug. cbn in Hdebug.
    now injection Hdebug as -> ->.
Qed.

(** X11, witness: debugging is on with one line logged; the dialog is saved
    with the box cleared. *)
Lemma debug_toggle_witness :
  let w := Window.State (editing 16 true "" "")
             (Some ["[12:00:00.000] Application started"]) [true] None in
  let d := Dialog 1 "Arial" 16 false in
  exists w' settings',
    show_debug (Window.win w) = Py.VBool true /\
    Window.save_settings IniFile noon d w ∅ = Py.Ok (w', settings') /\
    (true = false -> isChecked d = true ->
     Window.debug_console w'
     = Some ["[" ++ timestamp noon ++ "] Debug console enabled"] /\
     Window.docks w' = true :: Window.docks w) /\
    (true = true -> isChecked d = false ->
     Window.debug_console w' = Window.debug_console w /\
     Window.docks w' = match Window.docks w with
                       | _ :: older => false :: older
                       | [] => []
                       end /\
     forall t message, Window.log_debug t message w' = w') /\
    (true = isChecked d ->
     Window.debug_console w' = Window.debug_console w /\
     Window.docks w' = Window.docks w).
Proof.
  cbv zeta.
  pose proof (window_save_settings IniFile noon (Dialog 1 "Arial" 16 false)
                (Window.State (editing 16 true "" "")
                   (Some ["[12:00:00.000] Application started"]) [true] None) ∅)
    as Hsave.
  change (PyQt.fits_int (size_value (Dialog 1 "Arial" 16 false))) with true
    in Hsave.
  destruct Hsave as (w' & Hrun & _).
  eexists w', _.
  split; [reflexivity |]. split; [exact Hrun |].
  exact (debug_toggle IniFile noon (Dialog 1 "Arial" 16 false)
           (Window.State (editing 16 true "" "")
              (Some ["[12:00:00.000] Application started"]) [true] None)
           w' ∅ _ true eq_refl Hrun).
Defined.

(** X12: after a dialog save with the System button checked, the dialog
    opens with the Dark button checked: the choice of System is not kept
    anywhere. *)
Theorem system_choice_shows_dark (fmt : format) (e : Window.env) (now : time)
    (fam : string) (size : Z) (debug : bool) (w w' : Window.state)
    (settings settings' : store) :
  Window.save_settings fmt now (Dialog 0 fam size debug) w settings
  = Py.Ok (w', settings') ->
  theme_mode (Window.win w') = Py.VStr "Dark" /\
  settings' !! "theme_mode" = Some (Py.VStr "Dark") /\
  exists d', Window.open_settings e w' = Py.Ok d' /\ checkedId d' = 1.
Proof.
  intros Hrun.
  assert (Hfits : PyQt.fits_int size = true).
  { pose proof (window_save_settings fmt now (Dialog 0 fam size debug) w
                  settings) as Hsave.
    cbn [size_value] in Hsave.
    destruct (PyQt.fits_int size); [reflexivity | congruence]. }
  destruct (window_save_returns _ _ _ _ _ _ _ Hrun) as (-> & Hwin & _).
  pose proof (save_settings_attrs fmt (Dialog 0 fam size debug)
                (Window.win w) settings) as Hattrs.
  cbv zeta in Hattrs. rewrite <- Hwin in Hattrs.
  destruct Hattrs as (_ & Hs & Hd & _).
  assert (Htheme : theme_mode (Window.win w') = Py.VStr "Dark").
  { rewrite Hwin. unfold save_settings. cbn [checkedId Z.eqb fst].
    cbn [apply_font setFont theme_mode].
    rewrite apply_theme_cases. cbv zeta. reflexivity. }
  split; [exact Htheme |]. split.
  - match goal with
    | |- snd (save_settings _ ?d ?a ?s) !! _ = _ =>
        change (snd (save_settings fmt d a s))
          with (save_settings_to_file fmt (fst (save_settings fmt d a s)) s)
    end.
    rewrite <- Hwin.
    destruct (saved_keys fmt (Window.win w') settings) as (_ & _ & Ht & _).
    cbv zeta in Ht. now rewrite Ht, Htheme.
  - unfold Window.open_settings. rewrite Htheme, Hs, Hd.
    cbn [size_value isChecked PyQt.int_arg PyQt.bool_arg mbind Py.result_bind
         Py.eq_str String.eqb Ascii.eqb Bool.eqb].
    rewrite Hfits. cbn [mbind Py.result_bind].
    eexists. split; reflexivity.
Qed.

(** X12, witness: a fresh editor whose dialog is saved with System
    checked. *)
Lemma system_choice_shows_dark_witness :
  let w := Window.State (editing 16 false "" "") None [] None in
  exists w' settings',
    Window.save_settings IniFile noon (Dialog 0 "Arial" 16 false) w ∅
    = Py.Ok (w', settings') /\
    theme_mode (Window.win w') = Py.VStr "Dark" /\
    settings' !! "theme_mode" = Some (Py.VStr "Dark") /\
    exists d', Window.open_settings posix_env w' = Py.Ok d' /\ checkedId d' = 1.
Proof.
  cbv zeta.
  pose proof (window_save_settings IniFile noon (Dialog 0 "Arial" 16 false)
                (Window.State (editing 16 false "" "") None [] None) ∅)
    as Hsave.
  change (PyQt.fits_int (size_value (Dialog 0 "Arial" 16 false))) with true
    in Hsave.
  destruct Hsave as (w' & Hrun & _).
  eexists w', _. split; [exact Hrun |].
  exact (system_choice_shows_dark IniFile posix_env noon "Arial" 16 false
           (Window.State (editing 16 false "" "") None [] None) w' ∅ _ Hrun).
Defined.

(** ** More on the store *)

(** X13: a [load_settings] that returns sets [show_debug] to a [bool], and
    to [True] only when what the store holds under the key compares equal
    to the text [true]: that text itself or a byte array of those four
    bytes.  A missing key, any other text such as [True] or [1], and a
    stored number or [bool] all give [False]. *)
Theorem load_show_debug (py : Py.interp) (settings : store) (a a' : app) :
  load_settings py settings a = Py.Ok a' ->
  (show_debug a' = Py.VBool true
   <-> settings !! "show_debug" = Some (Py.VStr "true") \/
       settings !! "show_debug"
       = Some (Py.VBytes (list_ascii_of_string "true"))) /\
  (show_debug a' = Py.VBool true \/ show_debug a' = Py.VBool false) /\
  (forall b, settings !! "show_debug" = Some (Py.VBool b) ->
             show_debug a' = Py.VBool false) /\
  (forall n, settings !! "show_debug" = Some (Py.VInt n) ->
             show_debug a' = Py.VBool false) /\
  (settings !! "show_debug" = None -> show_debug a' = Py.VBool false).
Proof.
  intros Hload.
  destruct (load_settings_inv _ _ _ _ Hload) as (_ & _ & _ & _ & -> & _).
  pose proof (eq_str_lookup settings "show_debug" "true" "false"
                ltac:(discriminate)) as Hiff.
  split; [| split; [| split; [| split]]].
  - destruct (Py.eq_str _ "true").
    + split; [intros _; now apply Hiff | reflexivity].
    + split; [discriminate |].
      intros Hkey. apply Hiff in Hkey. discriminate.
  - destruct (Py.eq_str _ "true"); [now left | now right].
  - intros b Hb. unfold value. now rewrite Hb.
  - intros n Hn. unfold value. now rewrite Hn.
  - intros Hnone. unfold value. now rewrite Hnone.
Qed.

(** X13, witness: the byte array [true] loads as [True]. *)
Lemma load_show_debug_witness :
  let settings : store :=
    {["show_debug" := Py.VBytes (list_ascii_of_string "true")]} in
  exists a',
    load_settings Py.strict settings blank = Py.Ok a' /\
    show_debug a' = Py.VBool true.
Proof.
  cbv zeta.
  assert (Hload : { a' | load_settings Py.strict
                           ({["show_debug"
                              := Py.VBytes (list_ascii_of_string "true")]}
                              : store) blank
                         = Py.Ok a' }).
  { eexists. vm_compute. reflexivity. }
  destruct Hload as [a' Hload]. exists a'. split; [exact Hload |].
  apply (load_show_debug Py.strict _ blank a' Hload).
  right. reflexivity.
Defined.

(** X14: [load_settings] reads the seven keys and nothing else: adding,
    changing or removing any other key of the store changes neither whether
    it returns nor what it returns. *)
Theorem load_ignores_other_keys (py : Py.interp) (settings : store) (a : app)
    (k : string) (v : Py.value) :
  k ∉ ["font_name"; "font_size"; "theme_mode"; "text_content";
       "window_geometry"; "window_state"; "show_debug"] ->
  load_settings py (<[k := v]> settings) a = load_settings py settings a /\
  load_settings py (delete k settings) a = load_settings py settings a.
Proof.
  intros Hk.
  assert (Hne : forall key,
            key ∈ ["font_name"; "font_size"; "theme_mode"; "text_content";
                   "window_geometry"; "window_state"; "show_debug"] ->
            k <> key).
  { intros key Hkey ->. contradiction. }
  assert (Hins : forall key default,
            key ∈ ["font_name"; "font_size"; "theme_mode"; "text_content";
                   "window_geometry"; "window_state"; "show_debug"] ->
            value key default (<[k := v]> settings) = value key default settings).
  { intros key default Hkey. unfold value.
    now rewrite lookup_insert_ne by (apply Hne, Hkey). }
  assert (Hdel : forall key default,
            key ∈ ["font_name"; "font_size"; "theme_mode"; "text_content";
                   "window_geometry"; "window_state"; "show_debug"] ->
            value key default (delete k settings) = value key default settings).
  { intros key default Hkey. unfold value.
    now rewrite lookup_delete_ne by (apply Hne, Hkey). }
  unfold load_settings.
  split; [rewrite !Hins | rewrite !Hdel]; try reflexivity;
    repeat constructor.
Qed.

(** X14, witness: a key of some other program in the same store. *)
Lemma load_ignores_other_keys_witness :
  ("recent_files" ∉ ["font_name"; "font_size"; "theme_mode"; "text_content";
                     "window_geometry"; "window_state"; "show_debug"]) /\
  load_settings Py.strict (<["recent_files" := Py.VStr "a.txt"]>
                   {["font_size" := Py.VStr "12"]}) blank
  = load_settings Py.strict {["font_size" := Py.VStr "12"]} blank /\
  load_settings Py.strict
    (delete "recent_files" {["font_size" := Py.VStr "12"]}) blank
  = load_settings Py.strict {["font_size" := Py.VStr "12"]} blank.
Proof.
  assert (H : "recent_files" ∉ ["font_name"; "font_size"; "theme_mode";
                                "text_content"; "window_geometry";
                                "window_state"; "show_debug"]).
  { intros H. repeat (apply elem_of_cons in H as [H | H]; [discriminate |]).
    now apply elem_of_nil in H. }
  split; [exact H |].
  exact (load_ignores_other_keys Py.strict {["font_size" := Py.VStr "12"]}
           blank "recent_files" (Py.VStr "a.txt") H).
Defined.

(** X15: the last save wins: saving a window over a store that an earlier
    save wrote gives the same store as saving it over the store before that
    save, whatever the earlier save wrote; in particular saving twice is
    saving once. *)
Theorem save_overwrites_save (fmt fmt' : view) (p q : app) (settings : store) :
  save_settings_to_file fmt p (save_settings_to_file fmt' q settings)
  = save_settings_to_file fmt p settings /\
  save_settings_to_file fmt p (save_settings_to_file fmt p settings)
  = save_settings_to_file fmt p settings.
Proof.
  assert (H : forall f r,
            save_settings_to_file fmt p (save_settings_to_file f r settings)
            = save_settings_to_file fmt p settings).
  { intros f r. apply map_eq. intros k.
    destruct (decide (k ∈ ["font_name"; "font_size"; "theme_mode";
                           "text_content"; "window_geometry"; "window_state";
                           "show_debug"])) as [Hk | Hk].
    - destruct (saved_keys fmt p (save_settings_to_file f r settings))
        as (H1 & H2 & H3 & H4 & H5 & H6 & H7).
      destruct (saved_keys fmt p settings)
        as (G1 & G2 & G3 & G4 & G5 & G6 & G7).
      cbv zeta in *.
      repeat (apply elem_of_cons in Hk as [-> | Hk]; [congruence |]).
      now apply elem_of_nil in Hk.
    - now rewrite !saved_other_keys by exact Hk. }
  split; apply H.
Qed.

(** X16: applying the theme a second time changes nothing: whatever theme
    was asked for, the window [apply_theme] leaves is a fixed point of
    [apply_theme()]. *)
Theorem apply_theme_idempotent (theme : option Py.value) (self : app) :
  apply_theme None (apply_theme theme self) = apply_theme theme self /\
  apply_theme (Some (theme_mode (apply_theme theme self)))
    (apply_theme theme self)
  = apply_theme theme self.
Proof.
  pose proof (apply_theme_sheet theme self) as Hsheet.
  split.
  - now apply apply_theme_fixed.
  - rewrite (apply_theme_cases (Some _)). cbv zeta.
    destruct Hsheet as [[H Hs] | [H Hs]].
    + rewrite H. destruct (apply_theme theme self). cbn in *. now subst.
    + rewrite (eq_str_distinct _ "Light" "Dark") by (discriminate || exact H).
      rewrite H. destruct (apply_theme theme self). cbn in *. now subst.
Qed.
